(** * Matchup Royale: the API client's rate limiter and request loop

    A shallow embedding of [src/data_collection/api_client.py]:
    the [RateLimiter] class, [ClashRoyaleAPI._make_request], the four
    endpoint accessors and [get_api_stats].

    Conventions of the embedding.
    - Python [int] is [Z]; wall-clock seconds ([time.time()], the argument
      of [time.sleep]) and the result of true division are exact rationals
      [Q] (the source uses binary floating point; every comparison of the
      source is kept, rounding is not modelled).
    - Python [str] is [string], read as the UTF-8 bytes of the text.
    - A Python call either returns a value or raises; attribute updates made
      before a [raise] stay visible, so a computation is a function from the
      object and the outside world to a result, the object and the world.
    - The outside world is the clock, the log of the calls to [time.sleep]
      and [session.get], and the remote server, an oracle that answers the
      n-th [session.get] of the run. *)

From Stdlib Require Import ZArith QArith Qminmax List String Ascii Bool Lia Lqa.
From Stdlib Require Import DecimalString.
Import ListNotations.

Local Open Scope Z_scope.

(** ** Exceptions and results *)

(** The exception classes the client can meet.  [Timeout] is
    [requests.exceptions.Timeout]; [RequestException] stands for every other
    subclass of [requests.exceptions.RequestException]. *)
Inductive exn : Type :=
| Timeout
| RequestException
| ValueError
| KeyError
| TypeError
| IndexError
| ZeroDivisionError.

Inductive Res (A : Type) : Type :=
| Ok (a : A)
| Raise (e : exn).
Arguments Ok {A} a.
Arguments Raise {A} e.

(** ** The outside world *)

Inductive event : Type :=
| ESleep (d : Q)          (* time.sleep(d) returned *)
| EGet (url : string).    (* session.get(url, ...) was called *)

Record World : Type := mkWorld {
  clock : Q;              (* what time.time() returns now *)
  trace : list event;     (* oldest first *)
  calls : nat             (* number of session.get calls so far *)
}.

Definition Qltb (a b : Q) : bool := negb (Qle_bool b a).

(** ** Computations: object state [St], world, result *)

Definition M (St A : Type) : Type := St -> World -> Res A * St * World.

Definition ret {St A} (a : A) : M St A := fun s w => (Ok a, s, w).

Definition raise {St A} (e : exn) : M St A := fun s w => (Raise e, s, w).

Definition bind {St A B} (m : M St A) (k : A -> M St B) : M St B :=
  fun s w =>
    match m s w with
    | (Ok a, s', w') => k a s' w'
    | (Raise e, s', w') => (Raise e, s', w')
    end.

(** [try: m except h]: the handler [h] says, per exception class, whether a
    clause catches it ([Some] body) or it propagates ([None]). *)
Definition try_except {St A} (m : M St A) (h : exn -> option (M St A)) : M St A :=
  fun s w =>
    match m s w with
    | (Ok a, s', w') => (Ok a, s', w')
    | (Raise e, s', w') =>
        match h e with
        | Some body => body s' w'
        | None => (Raise e, s', w')
        end
    end.

Definition get_self {St} : M St St := fun s w => (Ok s, s, w).
Definition set_self {St} (s' : St) : M St unit := fun _ w => (Ok tt, s', w).

(** Run a method of a sub-object stored in a field of [St]. *)
Definition on_field {St T A} (get : St -> T) (set : T -> St -> St) (m : M T A) : M St A :=
  fun s w =>
    match m (get s) w with
    | (r, t', w') => (r, set t' s, w')
    end.

Declare Scope py_scope.
Delimit Scope py_scope with py.
Notation "x <- c1 ;; c2" := (bind c1 (fun x => c2))
  (at level 100, c1 at next level, right associativity) : py_scope.
Notation "c1 ;; c2" := (bind c1 (fun _ => c2))
  (at level 100, right associativity) : py_scope.

(** [time.time()] *)
Definition time_time {St} : M St Q := fun s w => (Ok (clock w), s, w).

(** [time.sleep(d)]: a negative length raises [ValueError]; otherwise the
    clock has advanced by [d] when the call returns. *)
Definition time_sleep {St} (d : Q) : M St unit :=
  fun s w =>
    if Qltb d 0 then (Raise ValueError, s, w)
    else (Ok tt, s, {| clock := clock w + d;
                       trace := trace w ++ [ESleep d];
                       calls := calls w |}).

(** Time that passes outside the program between two statements. *)
Definition elapse {St} (d : Q) : M St unit :=
  fun s w => (Ok tt, s, {| clock := clock w + d; trace := trace w; calls := calls w |}).

(** ** RateLimiter *)

Record RateLimiter : Type := mkRateLimiter {
  max_rps : Z;
  requests : list Q
}.

(** [RateLimiter.__init__] *)
Definition RateLimiter_init (max_requests_per_second : Z) : RateLimiter :=
  {| max_rps := max_requests_per_second; requests := [] |}.

(** [self.requests[0]] *)
Definition requests_0 : M RateLimiter Q :=
  (self <- get_self ;;
   match requests self with
   | [] => raise IndexError
   | r0 :: _ => ret r0
   end)%py.

(** [RateLimiter.wait_if_needed] *)
Definition wait_if_needed : M RateLimiter unit :=
  (now <- time_time ;;
   self <- get_self ;;
   set_self {| max_rps := max_rps self;
               requests := filter (fun req_time => Qltb (now - req_time) 1) (requests self) |} ;;
   self <- get_self ;;
   (if max_rps self <=? Z.of_nat (List.length (requests self)) then
      r0 <- requests_0 ;;
      let sleep_time := (1 - (now - r0))%Q in
      if Qltb 0 sleep_time then time_sleep sleep_time else ret tt
    else ret tt) ;;
   self <- get_self ;;
   set_self {| max_rps := max_rps self; requests := requests self ++ [now] |})%py.

(** ** Strings: [str.replace], [urllib.parse.quote], [int], [str] *)

Local Open Scope string_scope.

(** [s.replace(old, new)] for a one-character [old]. *)
Fixpoint replace (old : ascii) (new : string) (s : string) : string :=
  match s with
  | EmptyString => EmptyString
  | String c r =>
      if Ascii.eqb c old then new ++ replace old new r
      else String c (replace old new r)
  end.

Fixpoint mem_ascii (c : ascii) (s : string) : bool :=
  match s with
  | EmptyString => false
  | String d r => Ascii.eqb c d || mem_ascii c r
  end.

(** The characters [quote] never encodes ([urllib.parse._ALWAYS_SAFE]). *)
Definition ALWAYS_SAFE : string :=
  "ABCDEFGHIJKLMNOPQRSTUVWXYZabcdefghijklmnopqrstuvwxyz0123456789_.-~".

Definition hex_digit (n : N) : ascii :=
  match n with
  | 0%N => "0" | 1%N => "1" | 2%N => "2" | 3%N => "3"
  | 4%N => "4" | 5%N => "5" | 6%N => "6" | 7%N => "7"
  | 8%N => "8" | 9%N => "9" | 10%N => "A" | 11%N => "B"
  | 12%N => "C" | 13%N => "D" | 14%N => "E" | _ => "F"
  end%char.

Definition percent_byte (c : ascii) : string :=
  let n := N_of_ascii c in
  String "%" (String (hex_digit (N.div n 16)) (String (hex_digit (N.modulo n 16)) EmptyString)).

(** [quote(s, safe=safe)] on the UTF-8 bytes of [s]. *)
Fixpoint quote (s : string) (safe : string) : string :=
  match s with
  | EmptyString => EmptyString
  | String c r =>
      (if mem_ascii c ALWAYS_SAFE || mem_ascii c safe
       then String c EmptyString else percent_byte c) ++ quote r safe
  end.

(** [str(n)] for an [int]. *)
Definition str_of_int (n : Z) : string := NilZero.string_of_int (Z.to_int n).

Definition is_space (c : ascii) : bool :=
  let n := N_of_ascii c in
  ((9 <=? n) && (n <=? 13) || (28 <=? n) && (n <=? 32))%N.

Definition digit_value (c : ascii) : option Z :=
  let n := N_of_ascii c in
  if ((48 <=? n) && (n <=? 57))%N then Some (Z.of_N n - 48)%Z else None.

Fixpoint lstrip (s : string) : string :=
  match s with
  | String c r => if is_space c then lstrip r else s
  | EmptyString => EmptyString
  end.

(** Digits with single underscores between them, then optional trailing
    white space; [after_digit] says whether the previous character was a
    digit. *)
Fixpoint int_digits (s : string) (acc : Z) (after_digit : bool) : option Z :=
  match s with
  | EmptyString => if after_digit then Some acc else None
  | String c r =>
      match digit_value c with
      | Some d => int_digits r (10 * acc + d)%Z true
      | None =>
          if Ascii.eqb c "_" then
            if after_digit then int_digits r acc false else None
          else if is_space c then
            if after_digit then
              match lstrip r with EmptyString => Some acc | _ => None end
            else None
          else None
      end
  end.

(** [int(s)] for a [str] in base 10: white space around, an optional sign,
    decimal digits.  (ASCII only; the interpreter's limit on the number of
    digits is not modelled.) *)
Definition int_of_str (s : string) : Res Z :=
  let body :=
    match lstrip s with
    | String "-" r => option_map Z.opp (int_digits r 0 false)
    | String "+" r => int_digits r 0 false
    | r => int_digits r 0 false
    end in
  match body with
  | Some n => Ok n
  | None => Raise ValueError
  end.

(** A header value, or the [int] default handed to [dict.get]. *)
Inductive str_or_int : Type :=
| VStr (s : string)
| VInt (n : Z).

(** [int(v)] *)
Definition py_int (v : str_or_int) : Res Z :=
  match v with
  | VInt n => Ok n
  | VStr s => int_of_str s
  end.

Definition lower_ascii (c : ascii) : ascii :=
  let n := N_of_ascii c in
  if ((65 <=? n) && (n <=? 90))%N then ascii_of_N (n + 32) else c.

Fixpoint lower (s : string) : string :=
  match s with
  | EmptyString => EmptyString
  | String c r => String (lower_ascii c) (lower r)
  end.

(** [headers.get(key, default)] on the response's case-insensitive
    dictionary of headers. *)
Fixpoint headers_get (hs : list (string * string)) (key : string) (default : str_or_int)
  : str_or_int :=
  match hs with
  | [] => default
  | (k, v) :: r =>
      if String.eqb (lower k) (lower key) then VStr v else headers_get r key default
  end.

(** ** JSON payloads and the Python operations the accessors use on them *)

#[local] Unset Elimination Schemes.
Inductive json : Type :=
| JNull                                  (* None *)
| JBool (b : bool)
| JNum (q : Q)
| JStr (s : string)
| JList (l : list json)
| JDict (d : list (string * json)).
#[local] Set Elimination Schemes.

(** Truth value of a payload ([not data] is its negation). *)
Definition truthy (v : json) : bool :=
  match v with
  | JNull => false
  | JBool b => b
  | JNum q => negb (Qeq_bool q 0)
  | JStr s => negb (String.eqb s "")
  | JList l => match l with [] => false | _ => true end
  | JDict d => match d with [] => false | _ => true end
  end.

Fixpoint assoc {A} (key : string) (d : list (string * A)) : option A :=
  match d with
  | [] => None
  | (k, v) :: r => if String.eqb k key then Some v else assoc key r
  end.

Fixpoint is_substring (p s : string) : bool :=
  prefix p s ||
  match s with
  | EmptyString => false
  | String _ r => is_substring p r
  end.

Definition is_str (key : string) (v : json) : bool :=
  match v with
  | JStr s => String.eqb s key
  | _ => false
  end.

(** [key in data] for a [str] key. *)
Definition py_contains (key : string) (data : json) : Res bool :=
  match data with
  | JDict d => Ok (match assoc key d with Some _ => true | None => false end)
  | JList l => Ok (existsb (is_str key) l)
  | JStr s => Ok (is_substring key s)
  | JNull | JBool _ | JNum _ => Raise TypeError
  end.

(** [data[key]] for a [str] key. *)
Definition py_getitem (data : json) (key : string) : Res json :=
  match data with
  | JDict d => match assoc key d with Some v => Ok v | None => Raise KeyError end
  | _ => Raise TypeError
  end.

Fixpoint chars (s : string) : list json :=
  match s with
  | EmptyString => []
  | String c r => JStr (String c EmptyString) :: chars r
  end.

(** The items [for x in v] visits. *)
Definition py_iter (v : json) : Res (list json) :=
  match v with
  | JList l => Ok l
  | JDict d => Ok (map (fun kv => JStr (fst kv)) d)
  | JStr s => Ok (chars s)
  | JNull | JBool _ | JNum _ => Raise TypeError
  end.

(** [[f(x) for x in l]]: the first exception aborts the comprehension. *)
Fixpoint list_comp {A B} (f : A -> Res B) (l : list A) : Res (list B) :=
  match l with
  | [] => Ok []
  | x :: r =>
      match f x with
      | Raise e => Raise e
      | Ok y => match list_comp f r with
                | Raise e => Raise e
                | Ok ys => Ok (y :: ys)
                end
      end
  end.

Definition lift {St A} (r : Res A) : M St A := fun s w => (r, s, w).

Local Open Scope Z_scope.

(** ** The remote server *)

Record Response : Type := mkResponse {
  status_code : Z;
  headers : list (string * string);
  json_result : Res json      (* what response.json() does *)
}.

(** What one [session.get] does: how long it takes, and whether it returns
    a response or raises. *)
Record NetReply : Type := mkNetReply {
  latency : Q;
  reply : Res Response
}.

(** ** ClashRoyaleAPI *)

Record ClashRoyaleAPI : Type := mkClashRoyaleAPI {
  rate_limiter : RateLimiter;
  total_requests : Z;
  failed_requests : Z;
  rate_limit_hits : Z
}.

(** [ClashRoyaleAPI.__init__] *)
Definition ClashRoyaleAPI_init : ClashRoyaleAPI :=
  {| rate_limiter := RateLimiter_init 10;
     total_requests := 0;
     failed_requests := 0;
     rate_limit_hits := 0 |}.

Definition set_rate_limiter (rl : RateLimiter) (self : ClashRoyaleAPI) : ClashRoyaleAPI :=
  {| rate_limiter := rl;
     total_requests := total_requests self;
     failed_requests := failed_requests self;
     rate_limit_hits := rate_limit_hits self |}.

(** [self.total_requests += 1] *)
Definition incr_total_requests : M ClashRoyaleAPI unit :=
  fun self w =>
    (Ok tt,
     {| rate_limiter := rate_limiter self;
        total_requests := total_requests self + 1;
        failed_requests := failed_requests self;
        rate_limit_hits := rate_limit_hits self |}, w).

(** [self.failed_requests += 1] *)
Definition incr_failed_requests : M ClashRoyaleAPI unit :=
  fun self w =>
    (Ok tt,
     {| rate_limiter := rate_limiter self;
        total_requests := total_requests self;
        failed_requests := failed_requests self + 1;
        rate_limit_hits := rate_limit_hits self |}, w).

(** [self.rate_limit_hits += 1] *)
Definition incr_rate_limit_hits : M ClashRoyaleAPI unit :=
  fun self w =>
    (Ok tt,
     {| rate_limiter := rate_limiter self;
        total_requests := total_requests self;
        failed_requests := failed_requests self;
        rate_limit_hits := rate_limit_hits self + 1 |}, w).

(** How one pass through the body of the [for] loop ends: with a [return],
    or by going on to the next iteration ([continue], or the end of the
    body). *)
Inductive Flow (A : Type) : Type :=
| Return (a : A)
| Next.
Arguments Return {A} a.
Arguments Next {A}.

Section Client.

(** The server: [server n] answers the n-th [session.get] of the run. *)
Variable server : nat -> NetReply.

(** [config.CLASH_ROYALE_BASE_URL].  The [Config] class of
    [src/config/settings.py] does not define this attribute (nor
    [API_HEADERS] and [REQUEST_TIMEOUT]); the client is verified for any
    value of it. *)
Variable CLASH_ROYALE_BASE_URL : string.

(** [self.session.get(url, timeout=...)] *)
Definition session_get {St} (url : string) : M St Response :=
  fun s w =>
    let r := server (calls w) in
    let w' := {| clock := clock w + latency r;
                 trace := (trace w ++ [EGet url])%list;
                 calls := S (calls w) |} in
    match reply r with
    | Ok response => (Ok response, s, w')
    | Raise e => (Raise e, s, w')
    end.

(** The handler of both [except] clauses of [_make_request]: linear
    backoff, then the next iteration. *)
Definition backoff (attempt : Z) : M ClashRoyaleAPI (Flow json) :=
  (time_sleep (inject_Z (5 * (attempt + 1))) ;;
   ret Next)%py.

(** The [if]/[elif] chain on [response.status_code]. *)
Definition on_status (response : Response) : M ClashRoyaleAPI (Flow json) :=
  (if status_code response =? 200 then
     data <- lift (json_result response) ;;
     ret (Return data)
   else if status_code response =? 429 then
     (* Rate limited *)
     incr_rate_limit_hits ;;
     wait_time <- lift (py_int (headers_get (headers response) "Retry-After" (VInt 60))) ;;
     time_sleep (inject_Z wait_time) ;;
     ret Next
   else if status_code response =? 404 then
     (* Not found (player doesn't exist or is private) *)
     ret (Return JNull)
   else if status_code response =? 503 then
     (* Service unavailable (maintenance) *)
     time_sleep 300 ;;
     ret Next
   else
     incr_failed_requests ;;
     ret Next)%py.

(** The two [except] clauses; any other exception propagates. *)
Definition except_clauses (attempt : Z) (e : exn) : option (M ClashRoyaleAPI (Flow json)) :=
  match e with
  | Timeout => Some (backoff attempt)
  | RequestException => Some (backoff attempt)
  | _ => None
  end.

(** The body of the [for attempt in range(max_retries)] loop. *)
Definition attempt_body (endpoint : string) (attempt : Z) : M ClashRoyaleAPI (Flow json) :=
  try_except
    (on_field rate_limiter set_rate_limiter wait_if_needed ;;
     let url := CLASH_ROYALE_BASE_URL ++ endpoint in
     response <- session_get url ;;
     incr_total_requests ;;
     on_status response)%py
    (except_clauses attempt).

(** [for attempt in range(...)]: [n] iterations left, starting at index
    [attempt]. *)
Fixpoint for_attempts (endpoint : string) (n : nat) (attempt : Z)
  : M ClashRoyaleAPI (Flow json) :=
  match n with
  | O => ret Next
  | S n' =>
      (fl <- attempt_body endpoint attempt ;;
       match fl with
       | Return data => ret (Return data)
       | Next => for_attempts endpoint n' (attempt + 1)
       end)%py
  end.

(** [ClashRoyaleAPI._make_request] *)
Definition _make_request (endpoint : string) (max_retries : Z) : M ClashRoyaleAPI json :=
  (fl <- for_attempts endpoint (Z.to_nat max_retries) 0 ;;
   match fl with
   | Return data => ret data
   | Next =>
       (* All retries failed *)
       incr_failed_requests ;;
       ret JNull
   end)%py.

(** [not data or 'items' not in data] *)
Definition no_items (data : json) : Res bool :=
  if negb (truthy data) then Ok true
  else match py_contains "items" data with
       | Ok b => Ok (negb b)
       | Raise e => Raise e
       end.

(** [ClashRoyaleAPI.get_top_players] *)
Definition get_top_players (location : string) (limit : Z) : M ClashRoyaleAPI (list json) :=
  (let endpoint := "/locations/" ++ location ++ "/rankings/players" in
   let endpoint := if limit =? 0 then endpoint
                   else endpoint ++ "?limit=" ++ str_of_int limit in
   data <- _make_request endpoint 3 ;;
   failed <- lift (no_items data) ;;
   if failed then ret []
   else
     items <- lift (py_getitem data "items") ;;
     players <- lift (py_iter items) ;;
     lift (list_comp (fun player => py_getitem player "tag") players))%py.

(** The tag as it goes into the URL: [quote(f"#{clean_tag}", safe='')]
    with [clean_tag = player_tag.replace('#', '')]. *)
Definition encoded_tag (player_tag : string) : string :=
  let clean_tag := replace "#" "" player_tag in
  quote ("#" ++ clean_tag) "".

(** [ClashRoyaleAPI.get_player_info] *)
Definition get_player_info (player_tag : string) : M ClashRoyaleAPI json :=
  (let endpoint := "/players/" ++ encoded_tag player_tag in
   data <- _make_request endpoint 3 ;;
   ret data)%py.

(** [ClashRoyaleAPI.get_player_battles] *)
Definition get_player_battles (player_tag : string) : M ClashRoyaleAPI (list json) :=
  (let endpoint := "/players/" ++ encoded_tag player_tag ++ "/battlelog" in
   data <- _make_request endpoint 3 ;;
   if negb (truthy data) then ret []
   else match data with
        | JList battles => ret battles
        | _ => ret []
        end)%py.

(** [ClashRoyaleAPI.get_cards] *)
Definition get_cards : M ClashRoyaleAPI json :=
  (let endpoint := "/cards" in
   data <- _make_request endpoint 3 ;;
   failed <- lift (no_items data) ;;
   if failed then ret (JList [])
   else lift (py_getitem data "items"))%py.

End Client.

(** [a / b] on [int]s *)
Definition truediv (a b : Z) : Res Q :=
  if b =? 0 then Raise ZeroDivisionError
  else Ok (inject_Z a / inject_Z b)%Q.

Record ApiStats : Type := mkApiStats {
  stats_total_requests : Z;
  stats_failed_requests : Z;
  stats_rate_limit_hits : Z;
  stats_success_rate : Q
}.

(** [ClashRoyaleAPI.get_api_stats] *)
Definition get_api_stats (self : ClashRoyaleAPI) : Res ApiStats :=
  match truediv (total_requests self - failed_requests self)
                (Z.max (total_requests self) 1) with
  | Raise e => Raise e
  | Ok ratio =>
      Ok {| stats_total_requests := total_requests self;
            stats_failed_requests := failed_requests self;
            stats_rate_limit_hits := rate_limit_hits self;
            stats_success_rate := (ratio * 100)%Q |}
  end.

(** ** Vocabulary of the properties *)

(** The timestamps [wait_if_needed] keeps when the clock reads [now]. *)
Definition pruned (now : Q) (l : list Q) : list Q :=
  filter (fun req_time => Qltb (now - req_time) 1) l.

(** The world after [time.sleep(d)]. *)
Definition slept (d : Q) (w : World) : World :=
  {| clock := clock w + d; trace := trace w ++ [ESleep d]; calls := calls w |}.

(** Number of timestamps of [l] in the 1-second window that ends at [T]. *)
Definition count_in_window (T : Q) (l : list Q) : nat :=
  List.length (filter (fun t => Qltb (T - 1) t && Qle_bool t T) l).

(** [n] calls of [wait_if_needed] by one thread, [gap] seconds passing
    after each. *)
Fixpoint back_to_back (n : nat) (gap : Q) : M RateLimiter unit :=
  match n with
  | O => ret tt
  | S n' => (wait_if_needed ;; elapse gap ;; back_to_back n' gap)%py
  end.

(** The world at the start of a run: clock at 0, nothing logged. *)
Definition world0 : World := {| clock := 0; trace := []; calls := 0 |}.

(** The world after [session.get(url, ...)] returned or raised. *)
Definition got (server : nat -> NetReply) (url : string) (w : World) : World :=
  {| clock := clock w + latency (server (calls w));
     trace := trace w ++ [EGet url];
     calls := S (calls w) |}.

Definition is_sleep (e : event) : bool :=
  match e with
  | ESleep _ => true
  | EGet _ => false
  end.

(** The calls to [time.sleep] in a trace. *)
Definition sleeps (tr : list event) : list event := filter is_sleep tr.

(** The calls to [session.get] in a trace. *)
Definition gets (tr : list event) : list event := filter (fun e => negb (is_sleep e)) tr.

(** The object a computation leaves behind. *)
Definition self_after {St A} (r : Res A * St * World) : St := snd (fst r).

(** The world a computation leaves behind. *)
Definition world_after {St A} (r : Res A * St * World) : World := snd r.

(** What a computation returned or raised. *)
Definition result_of {St A} (r : Res A * St * World) : Res A := fst (fst r).

(** [n] calls of the same method, one after the other. *)
Fixpoint repeat_call {St A} (n : nat) (m : M St A) : M St unit :=
  match n with
  | O => ret tt
  | S n' => (m ;; repeat_call n' m)%py
  end.

(** The client after [self.total_requests += 1]. *)
Definition counted (api : ClashRoyaleAPI) : ClashRoyaleAPI :=
  {| rate_limiter := rate_limiter api;
     total_requests := total_requests api + 1;
     failed_requests := failed_requests api;
     rate_limit_hits := rate_limit_hits api |}.

(** The client after [self.rate_limit_hits += 1]. *)
Definition throttled (api : ClashRoyaleAPI) : ClashRoyaleAPI :=
  {| rate_limiter := rate_limiter api;
     total_requests := total_requests api;
     failed_requests := failed_requests api;
     rate_limit_hits := rate_limit_hits api + 1 |}.

(** The client after [self.failed_requests += 1]. *)
Definition failed (api : ClashRoyaleAPI) : ClashRoyaleAPI :=
  {| rate_limiter := rate_limiter api;
     total_requests := total_requests api;
     failed_requests := failed_requests api + 1;
     rate_limit_hits := rate_limit_hits api |}.

(** A status the client has no branch for. *)
Definition unclassified (status : Z) : Prop :=
  status <> 200 /\ status <> 429 /\ status <> 404 /\ status <> 503.

(** Servers of the examples. *)

Definition respond (status : Z) (hs : list (string * string)) (body : Res json) : NetReply :=
  {| latency := 1 # 100;
     reply := Ok {| status_code := status; headers := hs; json_result := body |} |}.

Definition server_timeout : nat -> NetReply :=
  fun _ => {| latency := 10; reply := Raise Timeout |}.

Definition server_404 : nat -> NetReply :=
  fun _ => respond 404 [] (Ok (JDict [("reason", JStr "notFound")])).

Definition server_500 : nat -> NetReply :=
  fun _ => respond 500 [] (Raise RequestException).

Definition server_429 (hs : list (string * string)) : nat -> NetReply :=
  fun _ => respond 429 hs (Ok (JDict [("reason", JStr "requestThrottled")])).

(** A leaderboard page with one entry that has a name and no tag. *)
Definition server_untagged : nat -> NetReply :=
  fun _ => respond 200 [] (Ok (JDict [("items", JList [JDict [("name", JStr "king")]])])).

(** Tag normalisation as the specification words it: strip one leading
    marker character, re-prefix, percent-encode. *)
Definition strip_leading_marker (player_tag : string) : string :=
  match player_tag with
  | String "#" r => r
  | _ => player_tag
  end.

Definition encoded_tag_leading_only (player_tag : string) : string :=
  quote ("#" ++ strip_leading_marker player_tag) "".

(** ** Further code and vocabulary *)

(** [ClashRoyaleAPI.test_connection]: the statistics are computed for the
    success message only. *)
Definition test_connection (server : nat -> NetReply) (base : string)
  : M ClashRoyaleAPI bool :=
  (top_players <- get_top_players server base "global" 5 ;;
   match top_players with
   | _ :: _ =>
       self <- get_self ;;
       _ <- lift (get_api_stats self) ;;
       ret true
   | [] => ret false
   end)%py.

(** [test_api] of [src/test_setup.py]: construct a client and test the
    connection, under [except Exception], which catches every class of
    [exn]. *)
Definition test_api (server : nat -> NetReply) (base : string) (w : World)
  : Res bool * World :=
  match try_except (test_connection server base) (fun _ => Some (ret false))
          ClashRoyaleAPI_init w with
  | (r, _, w') => (r, w')
  end.

(** Calls of [wait_if_needed] by one thread; [gaps] gives the time that
    passes after each of them. *)
Fixpoint spaced_calls (gaps : list Q) : M RateLimiter unit :=
  match gaps with
  | [] => ret tt
  | gap :: rest => (wait_if_needed ;; elapse gap ;; spaced_calls rest)%py
  end.

(** The limiter holds at most [max_rps] timestamps, or one more while the
    oldest of them is at least a second old. *)
Definition window_bounded (rl : RateLimiter) (w : World) : Prop :=
  Z.of_nat (List.length (requests rl)) <= max_rps rl
  \/ (Z.of_nat (List.length (requests rl)) = max_rps rl + 1
      /\ exists r0 rest, requests rl = r0 :: rest /\ (r0 + 1 <= clock w)%Q).

(** Seconds spent in [time.sleep] over a trace. *)
Fixpoint slept_seconds (tr : list event) : Q :=
  match tr with
  | [] => 0
  | ESleep d :: r => d + slept_seconds r
  | EGet _ :: r => slept_seconds r
  end.

(** An event a call for [url] may log: a sleep, or a request to [url]. *)
Definition own_event (url : string) (e : event) : Prop :=
  match e with
  | ESleep _ => True
  | EGet u => u = url
  end.

(** What one or more attempts that made [n] requests for [url] can have
    done to the client and the world. *)
Definition advanced (url : string) (n : nat)
           (api : ClashRoyaleAPI) (w : World)
           (api' : ClashRoyaleAPI) (w' : World) : Prop :=
  (exists evs, trace w' = (trace w ++ evs)%list
               /\ Forall (own_event url) evs
               /\ List.length (gets evs) = n)
  /\ calls w' = (calls w + n)%nat
  /\ max_rps (rate_limiter api') = max_rps (rate_limiter api)
  /\ total_requests api <= total_requests api' <= total_requests api + Z.of_nat n
  /\ failed_requests api <= failed_requests api' <= failed_requests api + Z.of_nat n
  /\ rate_limit_hits api <= rate_limit_hits api' <= rate_limit_hits api + Z.of_nat n.

(** The sleeps of the linear backoff of [n] attempts from index [attempt]
    on, in seconds. *)
Fixpoint backoff_seconds (attempt : Z) (n : nat) : Z :=
  match n with
  | O => 0
  | S n' => 5 * (attempt + 1) + backoff_seconds (attempt + 1) n'
  end.

Fixpoint string_all (p : ascii -> bool) (s : string) : bool :=
  match s with
  | EmptyString => true
  | String c r => p c && string_all p r
  end.

(** The characters a percent-encoded path segment is made of. *)
Definition segment_char (c : ascii) : bool :=
  mem_ascii c ALWAYS_SAFE || Ascii.eqb c "%".

(** The endpoints of the accessors. *)
Definition top_players_endpoint (location : string) (limit : Z) : string :=
  if limit =? 0 then "/locations/" ++ location ++ "/rankings/players"
  else ("/locations/" ++ location ++ "/rankings/players") ++ "?limit=" ++ str_of_int limit.

(** [k] passes through the loop body that all went on to the next
    iteration, with what they added to the counters and a lower bound on
    the time they slept. *)
Definition retried (k : nat) (d_total d_failed d_hits : Z) (secs : Q)
           (api : ClashRoyaleAPI) (w : World)
           (api' : ClashRoyaleAPI) (w' : World) : Prop :=
  max_rps (rate_limiter api') = max_rps (rate_limiter api)
  /\ calls w' = (calls w + k)%nat
  /\ total_requests api' = total_requests api + d_total
  /\ failed_requests api' = failed_requests api + d_failed
  /\ rate_limit_hits api' = rate_limit_hits api + d_hits
  /\ (slept_seconds (trace w) + secs <= slept_seconds (trace w'))%Q.

(** More servers of the examples. *)

Definition server_ok (data : json) : nat -> NetReply :=
  fun _ => respond 200 [] (Ok data).

Definition server_503 : nat -> NetReply :=
  fun _ => respond 503 [] (Raise RequestException).

Definition server_error : nat -> NetReply :=
  fun _ => {| latency := 1 # 10; reply := Raise RequestException |}.

(** The first [k] requests are answered by [first], the later ones by
    [later]. *)
Definition server_then (k : nat) (first later : nat -> NetReply) : nat -> NetReply :=
  fun i => if (i <? k)%nat then first i else later i.

(** Decoding of a percent-encoded string, to show that [quote] loses
    nothing. *)
Definition hex_value (c : ascii) : N :=
  let n := N_of_ascii c in
  if (n <? 58)%N then (n - 48)%N else (n - 55)%N.

Fixpoint unquote (s : string) : string :=
  match s with
  | EmptyString => EmptyString
  | String c r =>
      if Ascii.eqb c "%" then
        match r with
        | String h (String l r') =>
            String (ascii_of_N (16 * hex_value h + hex_value l)) (unquote r')
        | _ => String c (unquote r)
        end
      else String c (unquote r)
  end.

(** * Properties *)

(** ** Comparisons on [Q] *)

Lemma Qltb_lt (a b : Q) : Qltb a b = true <-> (a < b)%Q.
Proof.
  unfold Qltb. rewrite negb_true_iff. split; intro H.
  - apply Qnot_le_lt. intro L. apply Qle_bool_iff in L. congruence.
  - destruct (Qle_bool b a) eqn:E; [|reflexivity].
    apply Qle_bool_iff in E. exfalso. exact (Qlt_not_le _ _ H E).
Qed.

Lemma Qltb_ge (a b : Q) : Qltb a b = false <-> (b <= a)%Q.
Proof.
  unfold Qltb. rewrite negb_false_iff. apply Qle_bool_iff.
Qed.

(** ** The rate limiter *)

(** With a positive [max_rps] the call returns; it records the clock value
    read on entry (not the one after the sleep), and sleeps at most once, for
    a positive time. *)
Lemma wait_if_needed_returns (rl : RateLimiter) (w : World) :
  0 < max_rps rl ->
  exists w',
    wait_if_needed rl w =
      (Ok tt,
       {| max_rps := max_rps rl;
          requests := pruned (clock w) (requests rl) ++ [clock w] |},
       w')
    /\ (w' = w \/ exists d, (0 < d)%Q /\ w' = slept d w).
Proof.
  intros Hpos.
  unfold wait_if_needed, requests_0, bind, time_time, get_self, set_self, raise, ret.
  cbn [max_rps requests]. fold (pruned (clock w) (requests rl)).
  destruct (max_rps rl <=? Z.of_nat (List.length (pruned (clock w) (requests rl)))) eqn:Hfull.
  - destruct (pruned (clock w) (requests rl)) as [|r0 rest] eqn:Hp.
    + apply Z.leb_le in Hfull. cbn in Hfull. lia.
    + cbn [max_rps requests].
      destruct (Qltb 0 (1 - (clock w - r0))) eqn:Hs.
      * unfold time_sleep.
        apply Qltb_lt in Hs.
        assert (Hd : Qltb (1 - (clock w - r0)) 0 = false).
        { apply Qltb_ge. apply Qlt_le_weak. exact Hs. }
        rewrite Hd. cbn [max_rps requests].
        eexists. split; [reflexivity|].
        right. exists (1 - (clock w - r0))%Q. split; [exact Hs|reflexivity].
      * cbn [max_rps requests]. eexists. split; [reflexivity|]. left. reflexivity.
  - cbn [max_rps requests]. eexists. split; [reflexivity|]. left. reflexivity.
Qed.


(** ** One pass through the loop body *)

Section Attempt.

Variable server : nat -> NetReply.
Variable base : string.

(** Inside the client the rate limiter never raises, leaves the counters
    alone and makes no request. *)
Lemma rate_limit_wait (api : ClashRoyaleAPI) (w : World) :
  0 < max_rps (rate_limiter api) ->
  exists rl1 w1,
    on_field rate_limiter set_rate_limiter wait_if_needed api w
      = (Ok tt, set_rate_limiter rl1 api, w1)
    /\ max_rps rl1 = max_rps (rate_limiter api)
    /\ calls w1 = calls w
    /\ (w1 = w \/ exists d, (0 < d)%Q /\ w1 = slept d w).
Proof.
  intros Hpos.
  destruct (wait_if_needed_returns (rate_limiter api) w Hpos) as (w1 & Hrun & Hw1).
  eexists. exists w1. unfold on_field. rewrite Hrun.
  split; [reflexivity|]. split; [reflexivity|]. split; [|exact Hw1].
  destruct Hw1 as [->|(d & _ & ->)]; reflexivity.
Qed.

Ltac enter_attempt Hwait :=
  unfold attempt_body, try_except, bind; rewrite Hwait;
  unfold session_get.

(** A transport timeout or error: the counters are untouched, the client
    backs off and goes on with the next iteration. *)
Lemma attempt_transport_error (endpoint : string) (attempt : Z)
      (api : ClashRoyaleAPI) (w : World) (e : exn) :
  0 < max_rps (rate_limiter api) ->
  0 <= attempt ->
  reply (server (calls w)) = Raise e ->
  e = Timeout \/ e = RequestException ->
  exists rl1 w1,
    attempt_body server base endpoint attempt api w
      = (Ok Next, set_rate_limiter rl1 api,
         slept (inject_Z (5 * (attempt + 1))) (got server (base ++ endpoint) w1))
    /\ max_rps rl1 = max_rps (rate_limiter api)
    /\ calls w1 = calls w.
Proof.
  intros Hpos Hatt Hreply He.
  destruct (rate_limit_wait api w Hpos) as (rl1 & w1 & Hwait & Hmax & Hcalls & _).
  exists rl1, w1. split; [|split; assumption].
  enter_attempt Hwait. rewrite Hcalls, Hreply.
  assert (Hd : Qltb (inject_Z (5 * (attempt + 1))) 0 = false).
  { apply Qltb_ge. change 0%Q with (inject_Z 0). rewrite <- Zle_Qle. lia. }
  destruct He as [-> | ->]; unfold except_clauses, backoff, bind, time_sleep; rewrite Hd;
    unfold ret, slept, got; cbn [clock trace calls]; rewrite Hcalls; reflexivity.
Qed.

(** A response, whatever its status: it is counted, then the status
    decides, still under the [except] clauses. *)
Lemma attempt_response (endpoint : string) (attempt : Z)
      (api : ClashRoyaleAPI) (w : World) (response : Response) :
  0 < max_rps (rate_limiter api) ->
  reply (server (calls w)) = Ok response ->
  exists rl1 w1,
    attempt_body server base endpoint attempt api w
      = try_except (on_status response) (except_clauses attempt)
          (counted (set_rate_limiter rl1 api))
          (got server (base ++ endpoint) w1)
    /\ max_rps rl1 = max_rps (rate_limiter api)
    /\ calls w1 = calls w
    /\ (w1 = w \/ exists d, (0 < d)%Q /\ w1 = slept d w).
Proof.
  intros Hpos Hreply.
  destruct (rate_limit_wait api w Hpos) as (rl1 & w1 & Hwait & Hmax & Hcalls & Hw1).
  exists rl1, w1. split; [|repeat split; assumption].
  enter_attempt Hwait. rewrite Hcalls, Hreply.
  unfold incr_total_requests, counted, got. rewrite Hcalls.
  cbn [rate_limiter total_requests failed_requests rate_limit_hits set_rate_limiter].
  reflexivity.
Qed.

Ltac backoff_cases e :=
  destruct e; cbn [except_clauses]; try reflexivity;
  unfold backoff, bind, time_sleep;
  match goal with |- context [Qltb ?d 0] => destruct (Qltb d 0) end;
  reflexivity.

(** Nothing after the response is counted touches [total_requests]. *)
Lemma on_status_total_requests (response : Response) (attempt : Z)
      (api : ClashRoyaleAPI) (w : World) :
  total_requests
    (self_after (try_except (on_status response) (except_clauses attempt) api w))
  = total_requests api.
Proof.
  unfold try_except, on_status, self_after.
  destruct (status_code response =? 200).
  { unfold bind, lift. destruct (json_result response) as [data|e]; [reflexivity|].
    backoff_cases e. }
  destruct (status_code response =? 429).
  { unfold bind, lift, incr_rate_limit_hits.
    destruct (py_int _) as [n|e]; [|backoff_cases e].
    unfold time_sleep. destruct (Qltb (inject_Z n) 0); reflexivity. }
  destruct (status_code response =? 404); [reflexivity|].
  destruct (status_code response =? 503).
  { unfold bind, time_sleep. destruct (Qltb 300 0); reflexivity. }
  reflexivity.
Qed.

Lemma unclassified_tests (status : Z) :
  unclassified status ->
  (status =? 200) = false /\ (status =? 429) = false
  /\ (status =? 404) = false /\ (status =? 503) = false.
Proof.
  intros (H1 & H2 & H3 & H4). repeat split; apply Z.eqb_neq; assumption.
Qed.

(** Status 404: the loop body returns [None] at once. *)
Lemma attempt_404 (endpoint : string) (attempt : Z)
      (api : ClashRoyaleAPI) (w : World) (response : Response) :
  0 < max_rps (rate_limiter api) ->
  reply (server (calls w)) = Ok response ->
  status_code response = 404 ->
  exists rl1 w1,
    attempt_body server base endpoint attempt api w
      = (Ok (Return JNull), counted (set_rate_limiter rl1 api),
         got server (base ++ endpoint) w1)
    /\ max_rps rl1 = max_rps (rate_limiter api)
    /\ calls w1 = calls w
    /\ (w1 = w \/ exists d, (0 < d)%Q /\ w1 = slept d w).
Proof.
  intros Hpos Hreply Hst.
  destruct (attempt_response endpoint attempt api w response Hpos Hreply)
    as (rl1 & w1 & Hrun & Hrest).
  exists rl1, w1. split; [|exact Hrest].
  rewrite Hrun. unfold try_except, on_status. rewrite Hst. reflexivity.
Qed.

(** Status 429 with a [Retry-After] value that [int] reads as [n >= 0]:
    one more rate-limit hit, a sleep of [n] seconds, next iteration. *)
Lemma attempt_429 (endpoint : string) (attempt : Z)
      (api : ClashRoyaleAPI) (w : World) (response : Response) (n : Z) :
  0 < max_rps (rate_limiter api) ->
  reply (server (calls w)) = Ok response ->
  status_code response = 429 ->
  py_int (headers_get (headers response) "Retry-After" (VInt 60)) = Ok n ->
  0 <= n ->
  exists rl1 w1,
    attempt_body server base endpoint attempt api w
      = (Ok Next, throttled (counted (set_rate_limiter rl1 api)),
         slept (inject_Z n) (got server (base ++ endpoint) w1))
    /\ max_rps rl1 = max_rps (rate_limiter api)
    /\ calls w1 = calls w
    /\ (w1 = w \/ exists d, (0 < d)%Q /\ w1 = slept d w).
Proof.
  intros Hpos Hreply Hst Hint Hn.
  destruct (attempt_response endpoint attempt api w response Hpos Hreply)
    as (rl1 & w1 & Hrun & Hrest).
  exists rl1, w1. split; [|exact Hrest].
  rewrite Hrun. unfold try_except, on_status. rewrite Hst.
  change (429 =? 200) with false. change (429 =? 429) with true. cbv iota.
  unfold bind, incr_rate_limit_hits, lift. rewrite Hint.
  unfold time_sleep.
  assert (Hd : Qltb (inject_Z n) 0 = false).
  { apply Qltb_ge. change 0%Q with (inject_Z 0). rewrite <- Zle_Qle. exact Hn. }
  rewrite Hd. reflexivity.
Qed.

(** A status without a branch of its own: one more failure, next
    iteration, no sleep. *)
Lemma attempt_unclassified (endpoint : string) (attempt : Z)
      (api : ClashRoyaleAPI) (w : World) (response : Response) :
  0 < max_rps (rate_limiter api) ->
  reply (server (calls w)) = Ok response ->
  unclassified (status_code response) ->
  exists rl1 w1,
    attempt_body server base endpoint attempt api w
      = (Ok Next, failed (counted (set_rate_limiter rl1 api)),
         got server (base ++ endpoint) w1)
    /\ max_rps rl1 = max_rps (rate_limiter api)
    /\ calls w1 = calls w
    /\ (w1 = w \/ exists d, (0 < d)%Q /\ w1 = slept d w).
Proof.
  intros Hpos Hreply Hst.
  destruct (attempt_response endpoint attempt api w response Hpos Hreply)
    as (rl1 & w1 & Hrun & Hrest).
  exists rl1, w1. split; [|exact Hrest].
  destruct (unclassified_tests _ Hst) as (E1 & E2 & E3 & E4).
  rewrite Hrun. unfold try_except, on_status. rewrite E1, E2, E3, E4.
  reflexivity.
Qed.

End Attempt.

(** ** The retry loop *)

Section Loop.

Variable server : nat -> NetReply.
Variable base : string.

(** [n] iterations that all meet a transport timeout: the loop runs to its
    end and no counter moves. *)
Lemma for_attempts_timeouts (endpoint : string) (n : nat) :
  forall (attempt : Z) (api : ClashRoyaleAPI) (w : World),
    0 < max_rps (rate_limiter api) ->
    0 <= attempt ->
    (forall i, (i < n)%nat -> reply (server (calls w + i)%nat) = Raise Timeout) ->
    exists api' w',
      for_attempts server base endpoint n attempt api w = (Ok Next, api', w')
      /\ total_requests api' = total_requests api
      /\ failed_requests api' = failed_requests api
      /\ rate_limit_hits api' = rate_limit_hits api
      /\ calls w' = (calls w + n)%nat.
Proof.
  induction n as [|n IH]; intros attempt api w Hpos Hatt Hsrv.
  - exists api, w. cbn. rewrite Nat.add_0_r. repeat split; reflexivity.
  - assert (H0 : reply (server (calls w)) = Raise Timeout).
    { rewrite <- (Nat.add_0_r (calls w)). apply Hsrv. lia. }
    destruct (attempt_transport_error server base endpoint attempt api w Timeout
                Hpos Hatt H0 (or_introl eq_refl))
      as (rl1 & w1 & Hrun & Hmax & Hcalls).
    set (api1 := set_rate_limiter rl1 api) in *.
    set (w2 := slept (inject_Z (5 * (attempt + 1))) (got server (base ++ endpoint) w1)) in *.
    assert (Hc2 : calls w2 = S (calls w)).
    { unfold w2, slept, got. cbn [calls]. rewrite Hcalls. reflexivity. }
    destruct (IH (attempt + 1) api1 w2) as (api' & w' & Hloop & Ht & Hf & Hh & Hc).
    + unfold api1. cbn [rate_limiter set_rate_limiter]. rewrite Hmax. exact Hpos.
    + lia.
    + intros i Hi. rewrite Hc2.
      replace (S (calls w) + i)%nat with (calls w + S i)%nat by lia.
      apply Hsrv. lia.
    + exists api', w'. split.
      * cbn [for_attempts]. unfold bind at 1. rewrite Hrun. exact Hloop.
      * rewrite Ht, Hf, Hh, Hc, Hc2. unfold api1. cbn.
        repeat split; try reflexivity. lia.
Qed.

(** [n] iterations that all receive a status without a branch of its own:
    the loop runs to its end and has counted [n] failures. *)
Lemma for_attempts_unclassified (endpoint : string) (n : nat) :
  forall (attempt : Z) (api : ClashRoyaleAPI) (w : World),
    0 < max_rps (rate_limiter api) ->
    (forall i, (i < n)%nat ->
       exists response,
         reply (server (calls w + i)%nat) = Ok response
         /\ unclassified (status_code response)) ->
    exists api' w',
      for_attempts server base endpoint n attempt api w = (Ok Next, api', w')
      /\ total_requests api' = total_requests api + Z.of_nat n
      /\ failed_requests api' = failed_requests api + Z.of_nat n
      /\ rate_limit_hits api' = rate_limit_hits api
      /\ calls w' = (calls w + n)%nat.
Proof.
  induction n as [|n IH]; intros attempt api w Hpos Hsrv.
  - exists api, w. cbn. rewrite Nat.add_0_r, !Z.add_0_r. repeat split; reflexivity.
  - destruct (Hsrv 0%nat ltac:(lia)) as (response & H0 & Hst).
    rewrite Nat.add_0_r in H0.
    destruct (attempt_unclassified server base endpoint attempt api w response
                Hpos H0 Hst)
      as (rl1 & w1 & Hrun & Hmax & Hcalls & _).
    set (api1 := failed (counted (set_rate_limiter rl1 api))) in *.
    set (w2 := got server (base ++ endpoint) w1) in *.
    assert (Hc2 : calls w2 = S (calls w)).
    { unfold w2, got. cbn [calls]. rewrite Hcalls. reflexivity. }
    destruct (IH (attempt + 1) api1 w2) as (api' & w' & Hloop & Ht & Hf & Hh & Hc).
    + unfold api1. cbn. rewrite Hmax. exact Hpos.
    + intros i Hi. rewrite Hc2.
      replace (S (calls w) + i)%nat with (calls w + S i)%nat by lia.
      apply Hsrv. lia.
    + exists api', w'. split.
      * cbn [for_attempts]. unfold bind at 1. rewrite Hrun. exact Hloop.
      * rewrite Ht, Hf, Hh, Hc, Hc2. unfold api1. cbn.
        repeat split; lia.
Qed.

End Loop.

(** * The claims of the specification *)

(** ** Rate limiter *)

(** The timestamps the limiter keeps lie in the window that ends now,
    when none of them is in the future. *)
Lemma pruned_in_window (now : Q) (l : list Q) :
  (forall t, In t l -> (t <= now)%Q) ->
  filter (fun t => Qltb (now - 1) t && Qle_bool t now) (pruned now l) = pruned now l.
Proof.
  unfold pruned. induction l as [|t l IH]; intros Hpast; [reflexivity|].
  cbn [filter]. destruct (Qltb (now - t) 1) eqn:Ht.
  - cbn [filter].
    assert (Hin : Qltb (now - 1) t && Qle_bool t now = true).
    { apply andb_true_intro. split.
      - apply Qltb_lt. apply Qltb_lt in Ht. lra.
      - apply Qle_bool_iff. apply Hpast. left. reflexivity. }
    rewrite Hin. f_equal. apply IH. intros u Hu. apply Hpast. right. exact Hu.
  - apply IH. intros u Hu. apply Hpast. right. exact Hu.
Qed.

(** What goes wrong in general: when the window already holds [max_rps]
    timestamps, none of them in the future, the call sleeps and then records
    the clock value it read before sleeping, so the window that ends at that
    value holds one timestamp more than [max_rps]. *)
Lemma full_window_overshoots (rl : RateLimiter) (w : World) :
  0 < max_rps rl ->
  Z.of_nat (List.length (pruned (clock w) (requests rl))) = max_rps rl ->
  (forall t, In t (requests rl) -> (t <= clock w)%Q) ->
  Z.of_nat (count_in_window (clock w) (requests (self_after (wait_if_needed rl w))))
  = max_rps rl + 1.
Proof.
  intros Hpos Hfull Hpast.
  destruct (wait_if_needed_returns rl w Hpos) as (w' & Hrun & _).
  rewrite Hrun. unfold self_after. cbn [fst snd requests].
  unfold count_in_window. rewrite filter_app, length_app.
  pose proof (pruned_in_window (clock w) (requests rl) Hpast) as Hkeep.
  rewrite Hkeep. cbn [filter].
  assert (Hnow : Qltb (clock w - 1) (clock w) && Qle_bool (clock w) (clock w) = true).
  { apply andb_true_intro. split.
    - apply Qltb_lt. lra.
    - apply Qle_bool_iff. apply Qle_refl. }
  rewrite Hnow. cbn [List.length]. lia.
Qed.

(** C1, the code at the failing input.  The claim: at most [max_rps]
    timestamps are recorded within any trailing 1-second window.  Three
    calls 0.1 s apart on a limiter with [max_rps = 2] all return and leave
    three timestamps in the window that ends at 0.2 s; eleven calls without
    any pause on the client's limiter ([max_rps = 10]) leave eleven in the
    window that ends at 0 s. *)
Theorem wait_if_needed_overshoots :
  let run2 := back_to_back 3 (1 # 10) (RateLimiter_init 2) world0 in
  let run10 := back_to_back 11 0 (RateLimiter_init 10) world0 in
  (result_of run2 = Ok tt
   /\ max_rps (self_after run2) = 2
   /\ count_in_window (2 # 10) (requests (self_after run2)) = 3%nat)
  /\ (result_of run10 = Ok tt
      /\ max_rps (self_after run10) = 10
      /\ count_in_window 0 (requests (self_after run10)) = 11%nat).
Proof.
  vm_compute. repeat split; reflexivity.
Qed.

(** ** Counters of one attempt *)

(** C2 as stated fails: an attempt that ends in a transport timeout leaves
    [total_requests] as it was, so it is not true that every attempt adds 1
    to it whatever its outcome. *)
Lemma timeout_attempt_is_not_counted :
  ~ (forall (server : nat -> NetReply) (base endpoint : string) (attempt : Z)
            (api : ClashRoyaleAPI) (w : World),
        total_requests (self_after (attempt_body server base endpoint attempt api w))
        = total_requests api + 1).
Proof.
  intros H.
  specialize (H server_timeout "" "/cards" 0 ClashRoyaleAPI_init world0).
  vm_compute in H. discriminate H.
Qed.

(** C2, amended: an attempt that receives a response, whatever its status
    and whatever happens afterwards, adds exactly 1 to [total_requests]; an
    attempt whose [session.get] raises (timeout, transport error) leaves
    [total_requests] unchanged. *)
Theorem attempt_counts_responses
        (server : nat -> NetReply) (base endpoint : string) (attempt : Z)
        (api : ClashRoyaleAPI) (w : World) :
  0 < max_rps (rate_limiter api) ->
  total_requests (self_after (attempt_body server base endpoint attempt api w))
  = match reply (server (calls w)) with
    | Ok _ => total_requests api + 1
    | Raise _ => total_requests api
    end.
Proof.
  intros Hpos.
  destruct (reply (server (calls w))) as [response|e] eqn:Hreply.
  - destruct (attempt_response server base endpoint attempt api w response Hpos Hreply)
      as (rl1 & w1 & Hrun & _).
    rewrite Hrun, on_status_total_requests. reflexivity.
  - destruct (rate_limit_wait api w Hpos) as (rl1 & w1 & Hwait & _ & Hcalls & _).
    unfold attempt_body, try_except, bind. rewrite Hwait.
    unfold session_get. rewrite Hcalls, Hreply. unfold self_after.
    destruct e; cbn [except_clauses]; try reflexivity;
      unfold backoff, bind, time_sleep;
      destruct (Qltb (inject_Z (5 * (attempt + 1))) 0); reflexivity.
Qed.

Lemma attempt_counts_responses_witness :
  total_requests
    (self_after (attempt_body server_500 "" "/cards" 0 ClashRoyaleAPI_init world0))
  = 0 + 1
  /\ total_requests
       (self_after (attempt_body server_timeout "" "/cards" 0 ClashRoyaleAPI_init world0))
     = 0.
Proof.
  split.
  - apply (attempt_counts_responses server_500 "" "/cards" 0 ClashRoyaleAPI_init world0).
    reflexivity.
  - apply (attempt_counts_responses server_timeout "" "/cards" 0 ClashRoyaleAPI_init world0).
    reflexivity.
Defined.

(** ** Exhausted retries *)

(** C3: when every attempt of a call meets a transport timeout, the call
    returns [None] and [failed_requests] has grown by exactly 1, whatever
    the retry budget. *)
Theorem make_request_all_timeouts
        (server : nat -> NetReply) (base endpoint : string) (max_retries : Z)
        (api : ClashRoyaleAPI) (w : World) :
  0 < max_rps (rate_limiter api) ->
  (forall i, (i < Z.to_nat max_retries)%nat ->
     reply (server (calls w + i)%nat) = Raise Timeout) ->
  let run := _make_request server base endpoint max_retries api w in
  result_of run = Ok JNull
  /\ failed_requests (self_after run) = failed_requests api + 1.
Proof.
  intros Hpos Hsrv.
  destruct (for_attempts_timeouts server base endpoint (Z.to_nat max_retries)
              0 api w Hpos (Z.le_refl 0) Hsrv)
    as (api' & w' & Hloop & _ & Hf & _).
  assert (Hrun : _make_request server base endpoint max_retries api w
                 = (Ok JNull, failed api', w')).
  { unfold _make_request, bind. rewrite Hloop. reflexivity. }
  cbv zeta. rewrite Hrun. unfold result_of, self_after, failed.
  cbn [fst snd failed_requests]. rewrite Hf. split; reflexivity.
Qed.

Lemma make_request_all_timeouts_witness :
  let run := _make_request server_timeout "" "/cards" 3 ClashRoyaleAPI_init world0 in
  result_of run = Ok JNull
  /\ failed_requests (self_after run) = 0 + 1.
Proof.
  apply (make_request_all_timeouts server_timeout "" "/cards" 3 ClashRoyaleAPI_init world0).
  - reflexivity.
  - intros i _. reflexivity.
Defined.

(** C9: when every attempt of a call with retry budget [max_retries]
    receives a status that is none of 200, 429, 404 and 503, the call
    returns [None] and [failed_requests] has grown by [max_retries + 1]:
    once per attempt and once more for the exhausted budget. *)
Theorem make_request_all_unclassified
        (server : nat -> NetReply) (base endpoint : string) (max_retries : Z)
        (api : ClashRoyaleAPI) (w : World) :
  0 < max_rps (rate_limiter api) ->
  0 <= max_retries ->
  (forall i, (i < Z.to_nat max_retries)%nat ->
     exists response,
       reply (server (calls w + i)%nat) = Ok response
       /\ unclassified (status_code response)) ->
  let run := _make_request server base endpoint max_retries api w in
  result_of run = Ok JNull
  /\ failed_requests (self_after run) = failed_requests api + (max_retries + 1).
Proof.
  intros Hpos Hbudget Hsrv.
  destruct (for_attempts_unclassified server base endpoint (Z.to_nat max_retries)
              0 api w Hpos Hsrv)
    as (api' & w' & Hloop & _ & Hf & _).
  assert (Hrun : _make_request server base endpoint max_retries api w
                 = (Ok JNull, failed api', w')).
  { unfold _make_request, bind. rewrite Hloop. reflexivity. }
  cbv zeta. rewrite Hrun. unfold result_of, self_after, failed.
  cbn [fst snd failed_requests]. rewrite Hf. split; [reflexivity|]. lia.
Qed.

Lemma make_request_all_unclassified_witness :
  let run := _make_request server_500 "" "/cards" 3 ClashRoyaleAPI_init world0 in
  result_of run = Ok JNull
  /\ failed_requests (self_after run) = 0 + (3 + 1).
Proof.
  apply (make_request_all_unclassified server_500 "" "/cards" 3 ClashRoyaleAPI_init world0).
  - reflexivity.
  - lia.
  - intros i _. eexists. split; [reflexivity|]. unfold unclassified. cbn. lia.
Defined.

(** ** Status 429 *)

(** C4: an attempt whose response has status 429 sleeps for the number of
    seconds of its [Retry-After] header, 5 for a header of 5 and 60 when
    the header is absent, right after the request and before the next
    iteration (the rate limiter may have slept before the request as well);
    it adds exactly 1 to [rate_limit_hits] and leaves [failed_requests]
    unchanged. *)
Theorem attempt_429_retry_after
        (server : nat -> NetReply) (base endpoint : string) (attempt : Z)
        (api : ClashRoyaleAPI) (w : World) (response : Response) (secs : Z) :
  0 < max_rps (rate_limiter api) ->
  reply (server (calls w)) = Ok response ->
  status_code response = 429 ->
  (headers_get (headers response) "Retry-After" (VInt 60) = VStr "5" /\ secs = 5)
  \/ (headers_get (headers response) "Retry-After" (VInt 60) = VInt 60 /\ secs = 60) ->
  exists api' w1,
    attempt_body server base endpoint attempt api w
      = (Ok Next, api', slept (inject_Z secs) (got server (base ++ endpoint) w1))
    /\ (w1 = w \/ exists d, (0 < d)%Q /\ w1 = slept d w)
    /\ rate_limit_hits api' = rate_limit_hits api + 1
    /\ failed_requests api' = failed_requests api.
Proof.
  intros Hpos Hreply Hst Hhdr.
  assert (Hint : py_int (headers_get (headers response) "Retry-After" (VInt 60)) = Ok secs
                 /\ 0 <= secs).
  { destruct Hhdr as [[-> ->] | [-> ->]]; split; try reflexivity; lia. }
  destruct Hint as [Hint Hsecs].
  destruct (attempt_429 server base endpoint attempt api w response secs
              Hpos Hreply Hst Hint Hsecs)
    as (rl1 & w1 & Hrun & _ & _ & Hw1).
  exists (throttled (counted (set_rate_limiter rl1 api))), w1.
  split; [exact Hrun|]. split; [exact Hw1|]. split; reflexivity.
Qed.

Lemma attempt_429_retry_after_witness :
  (exists api' w1,
     attempt_body (server_429 [("Retry-After", "5")]) "" "/cards" 0 ClashRoyaleAPI_init world0
       = (Ok Next, api',
          slept (inject_Z 5) (got (server_429 [("Retry-After", "5")]) ("" ++ "/cards") w1))
     /\ (w1 = world0 \/ exists d, (0 < d)%Q /\ w1 = slept d world0)
     /\ rate_limit_hits api' = 0 + 1
     /\ failed_requests api' = 0)
  /\ (exists api' w1,
        attempt_body (server_429 []) "" "/cards" 0 ClashRoyaleAPI_init world0
          = (Ok Next, api',
             slept (inject_Z 60) (got (server_429 []) ("" ++ "/cards") w1))
        /\ (w1 = world0 \/ exists d, (0 < d)%Q /\ w1 = slept d world0)
        /\ rate_limit_hits api' = 0 + 1
        /\ failed_requests api' = 0).
Proof.
  split.
  - apply (attempt_429_retry_after (server_429 [("Retry-After", "5")]) "" "/cards" 0
             ClashRoyaleAPI_init world0
             {| status_code := 429; headers := [("Retry-After", "5")];
                json_result := Ok (JDict [("reason", JStr "requestThrottled")]) |} 5).
    + reflexivity.
    + reflexivity.
    + reflexivity.
    + left. split; reflexivity.
  - apply (attempt_429_retry_after (server_429 []) "" "/cards" 0
             ClashRoyaleAPI_init world0
             {| status_code := 429; headers := [];
                json_result := Ok (JDict [("reason", JStr "requestThrottled")]) |} 60).
    + reflexivity.
    + reflexivity.
    + reflexivity.
    + right. split; reflexivity.
Defined.

(** ** Status 404 *)

(** C5 as stated fails on "no sleep": the eleventh lookup of a quick run
    of lookups that all receive 404 returns [None] after one request, but
    the rate limiter has put the thread to sleep before that request. *)
Lemma not_found_call_can_sleep :
  let before :=
    repeat_call 10 (get_player_info server_404 "" "#ABC123") ClashRoyaleAPI_init world0 in
  let run :=
    _make_request server_404 "" "/players/%23ABC123" 3
      (self_after before) (world_after before) in
  result_of run = Ok JNull
  /\ List.length (gets (trace (world_after run)))
     = S (List.length (gets (trace (world_after before))))
  /\ sleeps (trace (world_after before)) = []
  /\ sleeps (trace (world_after run)) <> [].
Proof.
  vm_compute. repeat split; discriminate.
Qed.

(** C5, amended: a call whose first response has status 404 returns [None]
    after exactly one request; nothing happens after that request (no
    retry, no sleep), the only sleep there can be is the rate limiter's,
    before the request; [total_requests] has grown by 1 and the other two
    counters are unchanged. *)
Theorem make_request_404
        (server : nat -> NetReply) (base endpoint : string) (max_retries : Z)
        (api : ClashRoyaleAPI) (w : World) (response : Response) :
  0 < max_rps (rate_limiter api) ->
  1 <= max_retries ->
  reply (server (calls w)) = Ok response ->
  status_code response = 404 ->
  exists api' w1,
    _make_request server base endpoint max_retries api w
      = (Ok JNull, api', got server (base ++ endpoint) w1)
    /\ (w1 = w \/ exists d, (0 < d)%Q /\ w1 = slept d w)
    /\ total_requests api' = total_requests api + 1
    /\ failed_requests api' = failed_requests api
    /\ rate_limit_hits api' = rate_limit_hits api.
Proof.
  intros Hpos Hbudget Hreply Hst.
  destruct (attempt_404 server base endpoint 0 api w response Hpos Hreply Hst)
    as (rl1 & w1 & Hrun & _ & _ & Hw1).
  exists (counted (set_rate_limiter rl1 api)), w1.
  split; [|split; [exact Hw1|repeat split; reflexivity]].
  unfold _make_request.
  destruct (Z.to_nat max_retries) as [|n] eqn:Hn; [lia|].
  cbn [for_attempts]. unfold bind. rewrite Hrun. reflexivity.
Qed.

Lemma make_request_404_witness :
  exists api' w1,
    _make_request server_404 "" "/players/%23ABC123" 3 ClashRoyaleAPI_init world0
      = (Ok JNull, api', got server_404 ("" ++ "/players/%23ABC123") w1)
    /\ (w1 = world0 \/ exists d, (0 < d)%Q /\ w1 = slept d world0)
    /\ total_requests api' = 0 + 1
    /\ failed_requests api' = 0
    /\ rate_limit_hits api' = 0.
Proof.
  apply (make_request_404 server_404 "" "/players/%23ABC123" 3 ClashRoyaleAPI_init world0
           {| status_code := 404; headers := [];
              json_result := Ok (JDict [("reason", JStr "notFound")]) |}).
  - reflexivity.
  - lia.
  - reflexivity.
  - reflexivity.
Defined.

(** ** Accessors *)

(** C6, the code at the failing input.  The claim: no accessor lets an
    exception reach its caller, and [get_top_players] returns an empty
    sequence on any malformed payload.  A leaderboard page whose entry has
    no ["tag"] key makes [get_top_players] raise [KeyError], and a 429
    response whose [Retry-After] header is an HTTP date makes every accessor
    raise [ValueError]. *)
Theorem accessors_let_exceptions_through :
  let http_date := [("Retry-After", "Wed, 21 Oct 2015 07:28:00 GMT")] in
  result_of (get_top_players server_untagged "" "global" 200 ClashRoyaleAPI_init world0)
  = Raise KeyError
  /\ result_of (get_top_players (server_429 http_date) "" "global" 200
                  ClashRoyaleAPI_init world0)
     = Raise ValueError
  /\ result_of (get_player_info (server_429 http_date) "" "#ABC123"
                  ClashRoyaleAPI_init world0)
     = Raise ValueError
  /\ result_of (get_player_battles (server_429 http_date) "" "#ABC123"
                  ClashRoyaleAPI_init world0)
     = Raise ValueError
  /\ result_of (get_cards (server_429 http_date) "" ClashRoyaleAPI_init world0)
     = Raise ValueError.
Proof.
  vm_compute. repeat split; reflexivity.
Qed.

(** ** Tag normalisation *)

Lemma replace_marker_anywhere (a b : string) :
  replace "#" "" (a ++ "#" ++ b) = replace "#" "" (a ++ b).
Proof.
  induction a as [|c a IH].
  - reflexivity.
  - cbn [String.append replace]. destruct (Ascii.eqb c "#").
    + cbn [String.append]. exact IH.
    + f_equal. exact IH.
Qed.

(** C7 as stated fails on "strips only a leading marker": the client
    removes a marker in the middle of the tag as well, where stripping the
    leading one only would keep it (as [%23]). *)
Lemma encoded_tag_strips_inner_marker :
  encoded_tag "A#B" = "%23AB"
  /\ encoded_tag_leading_only "A#B" = "%23A%23B"
  /\ encoded_tag "A#B" <> encoded_tag_leading_only "A#B".
Proof.
  vm_compute. repeat split; discriminate.
Qed.

(** C7, amended: normalisation removes every marker character ['#'] of the
    tag, wherever it stands, before it re-prefixes one and percent-encodes;
    so a tag with a marker more, in front or elsewhere, normalises to the
    same path segment, and ["ABC123"] and ["#ABC123"] both give
    ["%23ABC123"]. *)
Theorem encoded_tag_ignores_markers :
  (forall a b : string, encoded_tag (a ++ "#" ++ b) = encoded_tag (a ++ b))
  /\ (forall tag : string, encoded_tag ("#" ++ tag) = encoded_tag tag)
  /\ encoded_tag "ABC123" = "%23ABC123"
  /\ encoded_tag "#ABC123" = "%23ABC123".
Proof.
  split; [|split; [|split; reflexivity]].
  - intros a b. unfold encoded_tag. rewrite replace_marker_anywhere. reflexivity.
  - intros tag. unfold encoded_tag.
    apply (f_equal (fun clean_tag => quote ("#" ++ clean_tag) "")).
    exact (replace_marker_anywhere "" tag).
Qed.

(** ** Statistics *)

(** C8: [get_api_stats] never divides by zero, and for a positive
    [total_requests] its success rate is
    [(total_requests - failed_requests) / total_requests * 100]. *)
Theorem get_api_stats_success_rate (api : ClashRoyaleAPI) :
  exists stats,
    get_api_stats api = Ok stats
    /\ (0 < total_requests api ->
        stats_success_rate stats
        = (inject_Z (total_requests api - failed_requests api)
           / inject_Z (total_requests api) * 100)%Q).
Proof.
  unfold get_api_stats, truediv.
  assert (Hnz : (Z.max (total_requests api) 1 =? 0) = false).
  { apply Z.eqb_neq. lia. }
  rewrite Hnz. eexists. split; [reflexivity|].
  intros Hpos. cbn [stats_success_rate].
  rewrite Z.max_l by lia. reflexivity.
Qed.

Lemma get_api_stats_success_rate_witness :
  exists stats,
    get_api_stats {| rate_limiter := RateLimiter_init 10; total_requests := 4;
                     failed_requests := 1; rate_limit_hits := 0 |} = Ok stats
    /\ stats_success_rate stats = (inject_Z (4 - 1) / inject_Z 4 * 100)%Q.
Proof.
  destruct (get_api_stats_success_rate
              {| rate_limiter := RateLimiter_init 10; total_requests := 4;
                 failed_requests := 1; rate_limit_hits := 0 |})
    as (stats & Hrun & Hrate).
  exists stats. split; [exact Hrun|]. apply Hrate. reflexivity.
Defined.

(** C10: after one call on a fresh client in which every attempt meets a
    transport timeout, whatever the retry budget, [failed_requests] is 1
    and [total_requests] is 0, and the success rate [get_api_stats] reports
    is -100: it has no lower bound of 0. *)
Theorem timeouts_make_success_rate_negative
        (base endpoint : string) (max_retries : Z) :
  let run := _make_request server_timeout base endpoint max_retries
               ClashRoyaleAPI_init world0 in
  total_requests (self_after run) < failed_requests (self_after run)
  /\ exists stats,
       get_api_stats (self_after run) = Ok stats
       /\ (stats_success_rate stats == -100)%Q
       /\ (stats_success_rate stats < 0)%Q.
Proof.
  destruct (for_attempts_timeouts server_timeout base endpoint (Z.to_nat max_retries)
              0 ClashRoyaleAPI_init world0 eq_refl (Z.le_refl 0)
              (fun i _ => eq_refl))
    as (api' & w' & Hloop & Ht & Hf & _).
  assert (Hrun : _make_request server_timeout base endpoint max_retries
                   ClashRoyaleAPI_init world0
                 = (Ok JNull, failed api', w')).
  { unfold _make_request, bind. rewrite Hloop. reflexivity. }
  cbv zeta. rewrite Hrun. unfold self_after, failed, get_api_stats.
  cbn [fst snd total_requests failed_requests rate_limit_hits].
  rewrite Ht, Hf. cbn [ClashRoyaleAPI_init total_requests failed_requests].
  split; [reflexivity|].
  eexists. split; [reflexivity|]. split; reflexivity.
Qed.

(** * Further properties of the code *)

(** ** The rate limiter *)

Lemma pruned_recent (now t : Q) (l : list Q) :
  In t (pruned now l) -> (now - t < 1)%Q.
Proof.
  unfold pruned. intros H. apply filter_In in H. apply Qltb_lt. exact (proj2 H).
Qed.

Ltac enter_wait :=
  unfold wait_if_needed, requests_0, bind, time_time, get_self, set_self, raise, ret;
  cbn [max_rps requests];
  match goal with
  | |- context [filter ?f (requests ?rl)] =>
      match goal with
      | w : World |- _ => fold (pruned (clock w) (requests rl))
      end
  end.

(** X1: while fewer than [max_rps] timestamps lie within the last second,
    the call returns at once: it does not sleep, it forgets the older
    timestamps and records the current time. *)
Theorem wait_if_needed_below_limit (rl : RateLimiter) (w : World) :
  Z.of_nat (List.length (pruned (clock w) (requests rl))) < max_rps rl ->
  wait_if_needed rl w
  = (Ok tt,
     {| max_rps := max_rps rl;
        requests := pruned (clock w) (requests rl) ++ [clock w] |},
     w).
Proof.
  intros Hlt. enter_wait.
  destruct (max_rps rl <=? Z.of_nat (List.length (pruned (clock w) (requests rl)))) eqn:E.
  - apply Z.leb_le in E. lia.
  - reflexivity.
Qed.

Lemma wait_if_needed_below_limit_witness :
  wait_if_needed {| max_rps := 2; requests := [0%Q; (3 # 2)%Q] |}
                 {| clock := 2; trace := []; calls := 0 |}
  = (Ok tt,
     {| max_rps := 2;
        requests := pruned 2 [0%Q; (3 # 2)%Q] ++ [2%Q] |},
     {| clock := 2; trace := []; calls := 0 |}).
Proof.
  apply (wait_if_needed_below_limit {| max_rps := 2; requests := [0%Q; (3 # 2)%Q] |}
           {| clock := 2; trace := []; calls := 0 |}).
  vm_compute. reflexivity.
Defined.

(** X2: when [max_rps] or more timestamps lie within the last second, the
    call sleeps once, for a positive time, and wakes exactly one second
    after the oldest of them; it still records the time read on entry. *)
Theorem wait_if_needed_window_full (rl : RateLimiter) (w : World) (r0 : Q) (rest : list Q) :
  pruned (clock w) (requests rl) = r0 :: rest ->
  max_rps rl <= Z.of_nat (List.length (r0 :: rest)) ->
  let nap := (1 - (clock w - r0))%Q in
  wait_if_needed rl w
  = (Ok tt,
     {| max_rps := max_rps rl; requests := (r0 :: rest) ++ [clock w] |},
     slept nap w)
  /\ (0 < nap)%Q
  /\ (clock (slept nap w) == r0 + 1)%Q.
Proof.
  intros Hp Hfull nap.
  assert (Hrecent : (clock w - r0 < 1)%Q).
  { apply (pruned_recent (clock w) r0 (requests rl)). rewrite Hp. left. reflexivity. }
  assert (Hnap : (0 < nap)%Q) by (unfold nap; lra).
  split; [|split; [exact Hnap|unfold slept, nap; cbn [clock]; ring]].
  enter_wait. rewrite Hp.
  apply Z.leb_le in Hfull. rewrite Hfull. cbn [max_rps requests].
  fold nap. rewrite (proj2 (Qltb_lt 0 nap) Hnap).
  unfold time_sleep.
  rewrite (proj2 (Qltb_ge nap 0) (Qlt_le_weak _ _ Hnap)).
  reflexivity.
Qed.

Lemma wait_if_needed_window_full_witness :
  let rl := {| max_rps := 2; requests := [0%Q; (1 # 10)%Q] |} in
  let w := {| clock := 2 # 10; trace := []; calls := 0 |} in
  let nap := (1 - ((2 # 10) - 0))%Q in
  wait_if_needed rl w
  = (Ok tt, {| max_rps := 2; requests := [0%Q; (1 # 10)%Q] ++ [(2 # 10)%Q] |}, slept nap w)
  /\ (0 < nap)%Q
  /\ (clock (slept nap w) == 0 + 1)%Q.
Proof.
  apply (wait_if_needed_window_full
           {| max_rps := 2; requests := [0%Q; (1 # 10)%Q] |}
           {| clock := 2 # 10; trace := []; calls := 0 |} 0%Q [(1 # 10)%Q]).
  - vm_compute. reflexivity.
  - vm_compute. discriminate.
Defined.

(** X3: a limiter built with a limit of zero or less raises [IndexError]
    when no timestamp lies within the last second (so on its first call):
    it reads [self.requests[0]] of an empty list.  Nothing is recorded and
    nothing sleeps. *)
Theorem wait_if_needed_index_error (rl : RateLimiter) (w : World) :
  max_rps rl <= 0 ->
  pruned (clock w) (requests rl) = [] ->
  wait_if_needed rl w
  = (Raise IndexError, {| max_rps := max_rps rl; requests := [] |}, w).
Proof.
  intros Hmax Hp. enter_wait. rewrite Hp.
  cbn [List.length Z.of_nat]. apply Z.leb_le in Hmax. rewrite Hmax. reflexivity.
Qed.

Lemma wait_if_needed_index_error_witness :
  wait_if_needed (RateLimiter_init 0) world0
  = (Raise IndexError, {| max_rps := 0; requests := [] |}, world0).
Proof.
  apply (wait_if_needed_index_error (RateLimiter_init 0) world0).
  - vm_compute. discriminate.
  - reflexivity.
Defined.

(** The three ways a call can go, by the number of timestamps within the
    last second. *)
Lemma wait_if_needed_cases (rl : RateLimiter) (w : World) :
  let kept := pruned (clock w) (requests rl) in
  (Z.of_nat (List.length kept) < max_rps rl
   /\ wait_if_needed rl w
      = (Ok tt, {| max_rps := max_rps rl; requests := kept ++ [clock w] |}, w))
  \/ (max_rps rl <= 0 /\ kept = []
      /\ wait_if_needed rl w
         = (Raise IndexError, {| max_rps := max_rps rl; requests := [] |}, w))
  \/ (exists r0 rest,
        kept = r0 :: rest
        /\ max_rps rl <= Z.of_nat (List.length kept)
        /\ (0 < 1 - (clock w - r0))%Q
        /\ wait_if_needed rl w
           = (Ok tt, {| max_rps := max_rps rl; requests := kept ++ [clock w] |},
              slept (1 - (clock w - r0)) w)).
Proof.
  intros kept. enter_wait. fold kept.
  assert (Hrecent : forall t, In t kept -> (clock w - t < 1)%Q).
  { intros t. apply pruned_recent. }
  destruct (max_rps rl <=? Z.of_nat (List.length kept)) eqn:Hfull.
  - apply Z.leb_le in Hfull. right.
    destruct kept as [|r0 rest].
    + left. split; [exact Hfull|]. split; reflexivity.
    + right. exists r0, rest.
      assert (Hnap : (0 < 1 - (clock w - r0))%Q).
      { specialize (Hrecent r0 (or_introl eq_refl)). lra. }
      split; [reflexivity|]. split; [exact Hfull|]. split; [exact Hnap|].
      cbn [max_rps requests].
      rewrite (proj2 (Qltb_lt _ _) Hnap). unfold time_sleep.
      rewrite (proj2 (Qltb_ge _ 0) (Qlt_le_weak _ _ Hnap)). reflexivity.
  - apply Z.leb_gt in Hfull. left. split; [exact Hfull|reflexivity].
Qed.

(** X4: after a call, whether it returned or raised, every timestamp the
    limiter holds is less than one second older than the time the call read
    on entry; older ones are gone. *)
Theorem wait_if_needed_keeps_last_second (rl : RateLimiter) (w : World) (t : Q) :
  In t (requests (self_after (wait_if_needed rl w))) ->
  (clock w - t < 1)%Q.
Proof.
  assert (Hnow : forall u, In u (pruned (clock w) (requests rl) ++ [clock w]) ->
                           (clock w - u < 1)%Q).
  { intros u Hu. apply in_app_or in Hu. destruct Hu as [Hu|[<-|[]]].
    - exact (pruned_recent _ _ _ Hu).
    - lra. }
  destruct (wait_if_needed_cases rl w) as [(_ & ->)|[(_ & _ & ->)|(r0 & rest & _ & _ & _ & ->)]];
    unfold self_after; cbn [fst snd requests].
  - apply Hnow.
  - intros [].
  - apply Hnow.
Qed.

Lemma wait_if_needed_keeps_last_second_witness :
  (2 - (3 # 2) < 1)%Q.
Proof.
  apply (wait_if_needed_keeps_last_second
           {| max_rps := 2; requests := [0%Q; (3 # 2)%Q] |}
           {| clock := 2; trace := []; calls := 0 |} (3 # 2)%Q).
  vm_compute. left. reflexivity.
Defined.

Lemma pruned_length (now : Q) (l : list Q) :
  (List.length (pruned now l) <= List.length l)%nat.
Proof.
  unfold pruned. induction l as [|t l IH]; cbn [filter List.length].
  - lia.
  - destruct (Qltb (now - t) 1); cbn [List.length]; lia.
Qed.

(** A call keeps the bound on the limiter's memory. *)
Lemma window_bounded_wait (rl : RateLimiter) (w : World) :
  0 < max_rps rl ->
  window_bounded rl w ->
  exists rl' w',
    wait_if_needed rl w = (Ok tt, rl', w')
    /\ max_rps rl' = max_rps rl
    /\ window_bounded rl' w'.
Proof.
  intros Hpos Hinv.
  assert (Hkept : Z.of_nat (List.length (pruned (clock w) (requests rl))) <= max_rps rl).
  { destruct Hinv as [Hle|(Hlen & r0 & rest & Hreq & Hold)].
    - pose proof (pruned_length (clock w) (requests rl)). lia.
    - rewrite Hreq in *. unfold pruned. cbn [filter].
      rewrite (proj2 (Qltb_ge (clock w - r0) 1)) by lra.
      fold (pruned (clock w) rest).
      pose proof (pruned_length (clock w) rest). cbn [List.length] in Hlen. lia. }
  destruct (wait_if_needed_cases rl w)
    as [(Hlt & Hrun)|[(Hmax & _)|(r0 & rest & Hp & Hfull & Hnap & Hrun)]].
  - eexists. exists w. split; [exact Hrun|]. split; [reflexivity|].
    left. cbn [requests max_rps]. rewrite length_app. cbn [List.length]. lia.
  - lia.
  - eexists. eexists. split; [exact Hrun|]. split; [reflexivity|].
    right. cbn [requests max_rps]. rewrite length_app. cbn [List.length]. split; [lia|].
    rewrite Hp. exists r0, (rest ++ [clock w])%list. split; [reflexivity|].
    unfold slept. cbn [clock]. lra.
Qed.

(** Time passing keeps it too. *)
Lemma window_bounded_later (rl : RateLimiter) (w w' : World) :
  (clock w <= clock w')%Q ->
  window_bounded rl w ->
  window_bounded rl w'.
Proof.
  intros Hlater [Hle|(Hlen & r0 & rest & Hreq & Hold)].
  - left. exact Hle.
  - right. split; [exact Hlen|]. exists r0, rest. split; [exact Hreq|]. lra.
Qed.

Lemma spaced_calls_bounded (gaps : list Q) :
  Forall (fun gap => (0 <= gap)%Q) gaps ->
  forall (rl : RateLimiter) (w : World),
    0 < max_rps rl ->
    window_bounded rl w ->
    exists rl' w',
      spaced_calls gaps rl w = (Ok tt, rl', w')
      /\ max_rps rl' = max_rps rl
      /\ window_bounded rl' w'.
Proof.
  induction 1 as [|gap gaps Hgap _ IH]; intros rl w Hpos Hinv.
  - exists rl, w. split; [reflexivity|]. split; [reflexivity|exact Hinv].
  - destruct (window_bounded_wait rl w Hpos Hinv) as (rl1 & w1 & Hrun & Hmax & Hinv1).
    set (w2 := {| clock := clock w1 + gap; trace := trace w1; calls := calls w1 |}).
    destruct (IH rl1 w2) as (rl' & w' & Hrest & Hmax' & Hinv').
    + rewrite Hmax. exact Hpos.
    + apply (window_bounded_later rl1 w1 w2); [|exact Hinv1].
      unfold w2. cbn [clock]. lra.
    + exists rl', w'. split; [|split; [congruence|exact Hinv']].
      cbn [spaced_calls]. unfold bind at 1. rewrite Hrun.
      unfold bind at 1, elapse. exact Hrest.
Qed.

(** X5: used by one thread, with any non-negative pauses between the
    calls, a limiter with a positive limit never raises and never holds
    more than [max_rps + 1] timestamps. *)
Theorem requests_stay_bounded (max_requests_per_second : Z) (gaps : list Q) (w : World) :
  0 < max_requests_per_second ->
  Forall (fun gap => (0 <= gap)%Q) gaps ->
  let run := spaced_calls gaps (RateLimiter_init max_requests_per_second) w in
  result_of run = Ok tt
  /\ Z.of_nat (List.length (requests (self_after run))) <= max_requests_per_second + 1.
Proof.
  intros Hpos Hgaps.
  destruct (spaced_calls_bounded gaps Hgaps (RateLimiter_init max_requests_per_second) w Hpos)
    as (rl' & w' & Hrun & Hmax & Hinv).
  { left. cbn. lia. }
  cbv zeta. rewrite Hrun. unfold result_of, self_after. cbn [fst snd].
  split; [reflexivity|].
  cbn [RateLimiter_init max_rps] in Hmax.
  destruct Hinv as [Hle|(Hlen & _)]; lia.
Qed.

Lemma requests_stay_bounded_witness :
  let run := spaced_calls [0; 0; 0; 0]%Q (RateLimiter_init 2) world0 in
  result_of run = Ok tt
  /\ Z.of_nat (List.length (requests (self_after run))) <= 2 + 1.
Proof.
  apply (requests_stay_bounded 2 [0; 0; 0; 0]%Q world0).
  - reflexivity.
  - repeat constructor; discriminate.
Defined.

(** ** What a call can do at most *)

Section Frame.

Variable server : nat -> NetReply.
Variable base : string.

Ltac frame_trace :=
  first [ symmetry; apply app_nil_r
        | rewrite <- ?app_assoc; reflexivity ].

Ltac show_advanced n :=
  exists n; split; [lia|];
  unfold advanced, self_after, world_after, slept, got, counted, throttled, failed;
  cbn [fst snd trace calls clock rate_limiter set_rate_limiter
       total_requests failed_requests rate_limit_hits max_rps];
  split;
  [ eexists; split;
    [ frame_trace
    | split; [cbn [app]; repeat constructor | reflexivity] ]
  | repeat split; try lia; try reflexivity ].

Ltac after_backoff :=
  unfold backoff, bind, time_sleep, ret;
  match goal with |- context [Qltb ?d 0] => destruct (Qltb d 0) end.

Ltac after_exn e :=
  destruct e; cbn [except_clauses]; try after_backoff; show_advanced 1%nat.

Ltac after_status response :=
  unfold incr_total_requests, on_status, bind, lift, ret,
    incr_rate_limit_hits, incr_failed_requests;
  destruct (status_code response =? 200);
  [ let data := fresh "data" in
    let e := fresh "e" in
    destruct (json_result response) as [data|e];
    [ show_advanced 1%nat | after_exn e ]
  | destruct (status_code response =? 429);
    [ let secs := fresh "secs" in
      let e := fresh "e" in
      destruct (py_int (headers_get (headers response) "Retry-After" (VInt 60)))
        as [secs|e];
      [ unfold time_sleep; destruct (Qltb (inject_Z secs) 0);
        cbn [except_clauses]; show_advanced 1%nat
      | after_exn e ]
    | destruct (status_code response =? 404);
      [ show_advanced 1%nat
      | destruct (status_code response =? 503);
        [ unfold time_sleep; destruct (Qltb 300 0);
          cbn [except_clauses]; show_advanced 1%nat
        | show_advanced 1%nat ] ] ] ].

Ltac after_get :=
  unfold session_get; cbn [calls];
  let response := fresh "response" in
  let e := fresh "e" in
  match goal with
  | |- context [reply ?r] => destruct (reply r) as [response|e]
  end;
  [ after_status response | after_exn e ].

(** One pass through the loop body makes at most one request, to the URL
    of the call; it never lowers a counter, raises each by at most one, and
    raises none unless it made the request. *)
Lemma attempt_advanced (endpoint : string) (attempt : Z)
      (api : ClashRoyaleAPI) (w : World) :
  exists n,
    (n <= 1)%nat
    /\ advanced (base ++ endpoint) n api w
         (self_after (attempt_body server base endpoint attempt api w))
         (world_after (attempt_body server base endpoint attempt api w)).
Proof.
  unfold attempt_body, try_except, bind, on_field.
  destruct (wait_if_needed_cases (rate_limiter api) w)
    as [(_ & ->)|[(_ & _ & ->)|(r0 & rest & _ & _ & _ & ->)]].
  - after_get.
  - cbn [except_clauses]. show_advanced 0%nat.
  - after_get.
Qed.

Lemma advanced_refl (url : string) (api : ClashRoyaleAPI) (w : World) :
  advanced url 0 api w api w.
Proof.
  unfold advanced. split.
  - exists []. split; [symmetry; apply app_nil_r|]. split; [constructor|reflexivity].
  - rewrite Nat.add_0_r. repeat split; lia.
Qed.

Lemma advanced_trans (url : string) (n m : nat)
      (api api1 api2 : ClashRoyaleAPI) (w w1 w2 : World) :
  advanced url n api w api1 w1 ->
  advanced url m api1 w1 api2 w2 ->
  advanced url (n + m) api w api2 w2.
Proof.
  intros ((evs1 & Ht1 & Ho1 & Hg1) & Hc1 & Hm1 & Htot1 & Hf1 & Hh1)
         ((evs2 & Ht2 & Ho2 & Hg2) & Hc2 & Hm2 & Htot2 & Hf2 & Hh2).
  unfold advanced. split.
  - exists (evs1 ++ evs2)%list. split; [|split].
    + rewrite Ht2, Ht1. symmetry. apply app_assoc.
    + apply Forall_app. split; assumption.
    + unfold gets in *. rewrite filter_app, length_app. lia.
  - split; [lia|]. split; [congruence|]. lia.
Qed.

(** The loop makes at most one request per iteration. *)
Lemma for_attempts_advanced (endpoint : string) (k : nat) :
  forall (attempt : Z) (api : ClashRoyaleAPI) (w : World),
  exists n,
    (n <= k)%nat
    /\ advanced (base ++ endpoint) n api w
         (self_after (for_attempts server base endpoint k attempt api w))
         (world_after (for_attempts server base endpoint k attempt api w)).
Proof.
  induction k as [|k IH]; intros attempt api w.
  - exists 0%nat. split; [lia|]. apply advanced_refl.
  - cbn [for_attempts]. unfold bind.
    destruct (attempt_advanced endpoint attempt api w) as (n1 & Hn1 & Hadv1).
    destruct (attempt_body server base endpoint attempt api w) as [[r api1] w1].
    unfold self_after, world_after in Hadv1. cbn [fst snd] in Hadv1.
    destruct r as [[data|]|e].
    + exists n1. split; [lia|exact Hadv1].
    + destruct (IH (attempt + 1) api1 w1) as (n2 & Hn2 & Hadv2).
      exists (n1 + n2)%nat. split; [lia|].
      exact (advanced_trans _ _ _ _ _ _ _ _ _ Hadv1 Hadv2).
    + exists n1. split; [lia|exact Hadv1].
Qed.

(** The call: at most [max_retries] requests, and at most one failure more
    than requests. *)
Lemma make_request_advanced (endpoint : string) (max_retries : Z)
      (api : ClashRoyaleAPI) (w : World) :
  let run := _make_request server base endpoint max_retries api w in
  exists n,
    (n <= Z.to_nat max_retries)%nat
    /\ (exists evs, trace (world_after run) = (trace w ++ evs)%list
                    /\ Forall (own_event (base ++ endpoint)) evs
                    /\ List.length (gets evs) = n)
    /\ calls (world_after run) = (calls w + n)%nat
    /\ max_rps (rate_limiter (self_after run)) = max_rps (rate_limiter api)
    /\ total_requests api <= total_requests (self_after run)
       <= total_requests api + Z.of_nat n
    /\ failed_requests api <= failed_requests (self_after run)
       <= failed_requests api + Z.of_nat n + 1
    /\ rate_limit_hits api <= rate_limit_hits (self_after run)
       <= rate_limit_hits api + Z.of_nat n.
Proof.
  cbv zeta. unfold _make_request, bind.
  destruct (for_attempts_advanced endpoint (Z.to_nat max_retries) 0 api w)
    as (n & Hn & Hadv).
  destruct (for_attempts server base endpoint (Z.to_nat max_retries) 0 api w)
    as [[r api1] w1].
  unfold self_after, world_after in Hadv. cbn [fst snd] in Hadv.
  destruct Hadv as (Hev & Hc & Hm & Ht & Hf & Hh).
  exists n. split; [exact Hn|].
  destruct r as [[data|]|e];
    unfold incr_failed_requests, ret, self_after, world_after;
    cbn [fst snd rate_limiter total_requests failed_requests rate_limit_hits];
    (split; [exact Hev|]); (split; [exact Hc|]); (split; [exact Hm|]); lia.
Qed.

(** X6: whatever the server does and whatever state the client is in, a
    call makes at most [max_retries] requests (none for a budget of zero or
    less), every one of them to [base_url + endpoint]; all it adds to the
    log besides are sleeps. *)
Theorem make_request_at_most_max_retries
        (endpoint : string) (max_retries : Z) (api : ClashRoyaleAPI) (w : World) :
  let run := _make_request server base endpoint max_retries api w in
  exists evs,
    trace (world_after run) = (trace w ++ evs)%list
    /\ Forall (own_event (base ++ endpoint)) evs
    /\ (List.length (gets evs) <= Z.to_nat max_retries)%nat
    /\ calls (world_after run) = (calls w + List.length (gets evs))%nat.
Proof.
  destruct (make_request_advanced endpoint max_retries api w)
    as (n & Hn & (evs & Htrace & Hown & Hgets) & Hcalls & _).
  exists evs. rewrite Hgets. repeat split; assumption.
Qed.

(** X7: whatever the server does, and whether the call returns or raises,
    no counter decreases; with [made] the number of requests the call made,
    [total_requests] and [rate_limit_hits] grow by at most [made] and
    [failed_requests] by at most [made + 1]; the limit of the rate limiter
    is unchanged. *)
Theorem make_request_counters_grow
        (endpoint : string) (max_retries : Z) (api : ClashRoyaleAPI) (w : World) :
  let run := _make_request server base endpoint max_retries api w in
  let made := Z.of_nat (calls (world_after run) - calls w) in
  total_requests api <= total_requests (self_after run) <= total_requests api + made
  /\ failed_requests api <= failed_requests (self_after run)
     <= failed_requests api + made + 1
  /\ rate_limit_hits api <= rate_limit_hits (self_after run)
     <= rate_limit_hits api + made
  /\ max_rps (rate_limiter (self_after run)) = max_rps (rate_limiter api).
Proof.
  destruct (make_request_advanced endpoint max_retries api w)
    as (n & _ & _ & Hcalls & Hmax & Ht & Hf & Hh).
  cbv zeta. rewrite Hcalls.
  replace (calls w + n - calls w)%nat with n by lia.
  split; [exact Ht|]. split; [exact Hf|]. split; [exact Hh|exact Hmax].
Qed.

(** X8: with a retry budget of zero or less the call makes no request at
    all: it returns [None] and counts one failure. *)
Theorem make_request_without_budget
        (endpoint : string) (max_retries : Z) (api : ClashRoyaleAPI) (w : World) :
  max_retries <= 0 ->
  _make_request server base endpoint max_retries api w = (Ok JNull, failed api, w).
Proof.
  intros Hle. unfold _make_request.
  replace (Z.to_nat max_retries) with 0%nat by lia.
  reflexivity.
Qed.

End Frame.

Lemma make_request_without_budget_witness :
  _make_request server_404 "" "/cards" 0 ClashRoyaleAPI_init world0
  = (Ok JNull, failed ClashRoyaleAPI_init, world0).
Proof.
  apply (make_request_without_budget server_404 "" "/cards" 0 ClashRoyaleAPI_init world0).
  lia.
Defined.

(** ** Retries *)

Lemma slept_seconds_app (a b : list event) :
  (slept_seconds (a ++ b) == slept_seconds a + slept_seconds b)%Q.
Proof.
  induction a as [|[d|url] a IH]; cbn [app slept_seconds].
  - ring.
  - rewrite IH. ring.
  - exact IH.
Qed.

Lemma slept_seconds_wait (w w1 : World) :
  (w1 = w \/ exists d, (0 < d)%Q /\ w1 = slept d w) ->
  (slept_seconds (trace w) <= slept_seconds (trace w1))%Q.
Proof.
  intros [->|(d & Hd & ->)].
  - apply Qle_refl.
  - unfold slept. cbn [trace]. rewrite slept_seconds_app. cbn [slept_seconds]. lra.
Qed.

Lemma slept_seconds_got (server : nat -> NetReply) (url : string) (w : World) :
  (slept_seconds (trace (got server url w)) == slept_seconds (trace w))%Q.
Proof.
  unfold got. cbn [trace]. rewrite slept_seconds_app. cbn [slept_seconds]. ring.
Qed.

Lemma slept_seconds_slept (d : Q) (w : World) :
  (slept_seconds (trace (slept d w)) == slept_seconds (trace w) + d)%Q.
Proof.
  unfold slept. cbn [trace]. rewrite slept_seconds_app. cbn [slept_seconds]. ring.
Qed.

Section Retry.

Variable server : nat -> NetReply.
Variable base : string.

(** If the first pass through the loop body returns, so does the call. *)
Lemma make_request_first_returns (endpoint : string) (max_retries : Z)
      (api api' : ClashRoyaleAPI) (w w' : World) (data : json) :
  1 <= max_retries ->
  attempt_body server base endpoint 0 api w = (Ok (Return data), api', w') ->
  _make_request server base endpoint max_retries api w = (Ok data, api', w').
Proof.
  intros Hbudget Hrun. unfold _make_request.
  destruct (Z.to_nat max_retries) as [|n] eqn:Hn; [lia|].
  cbn [for_attempts]. unfold bind. rewrite Hrun. reflexivity.
Qed.

(** Status 200 with a body that parses: the loop body returns the payload. *)
Lemma attempt_200 (endpoint : string) (attempt : Z)
      (api : ClashRoyaleAPI) (w : World) (response : Response) (data : json) :
  0 < max_rps (rate_limiter api) ->
  reply (server (calls w)) = Ok response ->
  status_code response = 200 ->
  json_result response = Ok data ->
  exists rl1 w1,
    attempt_body server base endpoint attempt api w
      = (Ok (Return data), counted (set_rate_limiter rl1 api),
         got server (base ++ endpoint) w1)
    /\ max_rps rl1 = max_rps (rate_limiter api)
    /\ calls w1 = calls w
    /\ (w1 = w \/ exists d, (0 < d)%Q /\ w1 = slept d w).
Proof.
  intros Hpos Hreply Hst Hjson.
  destruct (attempt_response server base endpoint attempt api w response Hpos Hreply)
    as (rl1 & w1 & Hrun & Hrest).
  exists rl1, w1. split; [|exact Hrest].
  rewrite Hrun. unfold try_except, on_status. rewrite Hst.
  change (200 =? 200) with true. cbv iota.
  unfold bind, lift. rewrite Hjson. reflexivity.
Qed.

(** Status 503: a sleep of 300 seconds, next iteration, no counter but
    [total_requests]. *)
Lemma attempt_503 (endpoint : string) (attempt : Z)
      (api : ClashRoyaleAPI) (w : World) (response : Response) :
  0 < max_rps (rate_limiter api) ->
  reply (server (calls w)) = Ok response ->
  status_code response = 503 ->
  exists rl1 w1,
    attempt_body server base endpoint attempt api w
      = (Ok Next, counted (set_rate_limiter rl1 api),
         slept 300 (got server (base ++ endpoint) w1))
    /\ max_rps rl1 = max_rps (rate_limiter api)
    /\ calls w1 = calls w
    /\ (w1 = w \/ exists d, (0 < d)%Q /\ w1 = slept d w).
Proof.
  intros Hpos Hreply Hst.
  destruct (attempt_response server base endpoint attempt api w response Hpos Hreply)
    as (rl1 & w1 & Hrun & Hrest).
  exists rl1, w1. split; [|exact Hrest].
  rewrite Hrun. unfold try_except, on_status. rewrite Hst. reflexivity.
Qed.

(** A transport timeout or error, with what the rate limiter did before
    the request. *)
Lemma attempt_backoff (endpoint : string) (attempt : Z)
      (api : ClashRoyaleAPI) (w : World) (e : exn) :
  0 < max_rps (rate_limiter api) ->
  0 <= attempt ->
  reply (server (calls w)) = Raise e ->
  e = Timeout \/ e = RequestException ->
  exists rl1 w1,
    attempt_body server base endpoint attempt api w
      = (Ok Next, set_rate_limiter rl1 api,
         slept (inject_Z (5 * (attempt + 1))) (got server (base ++ endpoint) w1))
    /\ max_rps rl1 = max_rps (rate_limiter api)
    /\ calls w1 = calls w
    /\ (w1 = w \/ exists d, (0 < d)%Q /\ w1 = slept d w).
Proof.
  intros Hpos Hatt Hreply He.
  destruct (rate_limit_wait api w Hpos) as (rl1 & w1 & Hwait & Hmax & Hcalls & Hw1).
  exists rl1, w1. split; [|repeat split; assumption].
  unfold attempt_body, try_except, bind. rewrite Hwait.
  unfold session_get. rewrite Hcalls, Hreply.
  assert (Hd : Qltb (inject_Z (5 * (attempt + 1))) 0 = false).
  { apply Qltb_ge. change 0%Q with (inject_Z 0). rewrite <- Zle_Qle. lia. }
  destruct He as [-> | ->]; unfold except_clauses, backoff, bind, time_sleep; rewrite Hd;
    unfold ret, slept, got; cbn [clock trace calls]; rewrite Hcalls; reflexivity.
Qed.

(** The loop, cut in two. *)
Lemma for_attempts_app (endpoint : string) (k m : nat) :
  forall (attempt : Z) (api : ClashRoyaleAPI) (w : World),
    for_attempts server base endpoint (k + m) attempt api w
    = match for_attempts server base endpoint k attempt api w with
      | (Ok Next, api', w') =>
          for_attempts server base endpoint m (attempt + Z.of_nat k) api' w'
      | other => other
      end.
Proof.
  induction k as [|k IH]; intros attempt api w.
  - cbn [for_attempts Nat.add]. unfold ret. rewrite Z.add_0_r. reflexivity.
  - cbn [for_attempts Nat.add]. unfold bind.
    destruct (attempt_body server base endpoint attempt api w) as [[r api1] w1].
    destruct r as [[data|]|e]; try reflexivity.
    rewrite IH. replace (attempt + 1 + Z.of_nat k) with (attempt + Z.of_nat (S k)) by lia.
    reflexivity.
Qed.

Lemma retried_trans (k m : nat) (t1 f1 h1 t2 f2 h2 : Z) (s1 s2 : Q)
      (api api1 api2 : ClashRoyaleAPI) (w w1 w2 : World) :
  retried k t1 f1 h1 s1 api w api1 w1 ->
  retried m t2 f2 h2 s2 api1 w1 api2 w2 ->
  retried (k + m) (t1 + t2) (f1 + f2) (h1 + h2) (s1 + s2) api w api2 w2.
Proof.
  intros (Hm1 & Hc1 & Ht1 & Hf1 & Hh1 & Hs1) (Hm2 & Hc2 & Ht2 & Hf2 & Hh2 & Hs2).
  unfold retried. repeat split; try lia; try congruence.
  clear - Hs1 Hs2. lra.
Qed.

(** The world after one retried request: the rate limiter's wait, the
    request, then a sleep of [secs]. *)
Lemma retried_once (url : string) (api api' : ClashRoyaleAPI) (w w1 : World)
      (rl1 : RateLimiter) (t f h : Z) (secs : Q) :
  max_rps rl1 = max_rps (rate_limiter api) ->
  calls w1 = calls w ->
  (w1 = w \/ exists d, (0 < d)%Q /\ w1 = slept d w) ->
  max_rps (rate_limiter api') = max_rps rl1 ->
  total_requests api' = total_requests api + t ->
  failed_requests api' = failed_requests api + f ->
  rate_limit_hits api' = rate_limit_hits api + h ->
  retried 1 t f h secs api w api' (slept secs (got server url w1)).
Proof.
  intros Hmax Hcalls Hw1 Hmax' Ht Hf Hh.
  unfold retried. repeat split; try assumption; try congruence.
  - unfold slept, got. cbn [calls]. lia.
  - rewrite slept_seconds_slept, slept_seconds_got.
    pose proof (slept_seconds_wait w w1 Hw1) as Hwait. clear - Hwait. lra.
Qed.

(** [k] iterations that all receive status 503. *)
Lemma for_attempts_maintenance (endpoint : string) (k : nat) :
  forall (attempt : Z) (api : ClashRoyaleAPI) (w : World),
    0 < max_rps (rate_limiter api) ->
    (forall i, (i < k)%nat ->
       exists response,
         reply (server (calls w + i)%nat) = Ok response
         /\ status_code response = 503) ->
    exists api' w',
      for_attempts server base endpoint k attempt api w = (Ok Next, api', w')
      /\ retried k (Z.of_nat k) 0 0 (inject_Z (300 * Z.of_nat k)) api w api' w'.
Proof.
  induction k as [|k IH]; intros attempt api w Hpos Hsrv.
  - exists api, w. split; [reflexivity|].
    unfold retried. rewrite Nat.add_0_r, !Z.add_0_r.
    repeat split; try reflexivity.
    change (inject_Z (300 * Z.of_nat 0)) with 0%Q. clear. lra.
  - destruct (Hsrv 0%nat ltac:(lia)) as (response & H0 & Hst).
    rewrite Nat.add_0_r in H0.
    destruct (attempt_503 endpoint attempt api w response Hpos H0 Hst)
      as (rl1 & w1 & Hrun & Hmax & Hcalls & Hw1).
    pose proof (retried_once (base ++ endpoint) api (counted (set_rate_limiter rl1 api))
                  w w1 rl1 1 0 0 300 Hmax Hcalls Hw1 eq_refl eq_refl
                  (eq_sym (Z.add_0_r _)) (eq_sym (Z.add_0_r _))) as Hone.
    set (api1 := counted (set_rate_limiter rl1 api)) in *.
    set (w2 := slept 300 (got server (base ++ endpoint) w1)) in *.
    destruct (IH (attempt + 1) api1 w2) as (api' & w' & Hloop & Hrest).
    + unfold api1. cbn. rewrite Hmax. exact Hpos.
    + intros i Hi. destruct Hone as (_ & Hc2 & _). rewrite Hc2.
      replace (calls w + 1 + i)%nat with (calls w + S i)%nat by lia.
      apply Hsrv. lia.
    + exists api', w'. split.
      * cbn [for_attempts]. unfold bind at 1. rewrite Hrun. exact Hloop.
      * pose proof (retried_trans _ _ _ _ _ _ _ _ _ _ _ _ _ _ _ _ Hone Hrest) as H.
        unfold retried in *. cbn [Nat.add] in H.
        destruct H as (A & B & C & D & E & F).
        repeat split; try lia; try congruence.
        rewrite Nat2Z.inj_succ.
        replace (300 * Z.succ (Z.of_nat k)) with (300 + 300 * Z.of_nat k) by lia.
        rewrite inject_Z_plus. exact F.
Qed.

Lemma retried_weaken (k : nat) (t f h : Z) (s s' : Q)
      (api api' : ClashRoyaleAPI) (w w' : World) :
  (s' <= s)%Q ->
  retried k t f h s api w api' w' ->
  retried k t f h s' api w api' w'.
Proof.
  intros Hle (Hm & Hc & Ht & Hf & Hh & Hs).
  unfold retried. repeat split; try assumption.
  clear - Hle Hs. lra.
Qed.

Lemma retried_none (api : ClashRoyaleAPI) (w : World) :
  retried 0 0 0 0 0 api w api w.
Proof.
  unfold retried. rewrite Nat.add_0_r, !Z.add_0_r.
  repeat split; try reflexivity. clear. lra.
Qed.

(** [k] iterations that all receive status 429 with a [Retry-After] value
    that [int] reads as a number that is not negative. *)
Lemma for_attempts_throttled (endpoint : string) (k : nat) :
  forall (attempt : Z) (api : ClashRoyaleAPI) (w : World),
    0 < max_rps (rate_limiter api) ->
    (forall i, (i < k)%nat ->
       exists response secs,
         reply (server (calls w + i)%nat) = Ok response
         /\ status_code response = 429
         /\ py_int (headers_get (headers response) "Retry-After" (VInt 60)) = Ok secs
         /\ 0 <= secs) ->
    exists api' w',
      for_attempts server base endpoint k attempt api w = (Ok Next, api', w')
      /\ retried k (Z.of_nat k) 0 (Z.of_nat k) 0 api w api' w'.
Proof.
  induction k as [|k IH]; intros attempt api w Hpos Hsrv.
  - exists api, w. split; [reflexivity|apply retried_none].
  - destruct (Hsrv 0%nat ltac:(lia)) as (response & secs & H0 & Hst & Hint & Hsecs).
    rewrite Nat.add_0_r in H0.
    destruct (attempt_429 server base endpoint attempt api w response secs
                Hpos H0 Hst Hint Hsecs)
      as (rl1 & w1 & Hrun & Hmax & Hcalls & Hw1).
    pose proof (retried_once (base ++ endpoint) api
                  (throttled (counted (set_rate_limiter rl1 api)))
                  w w1 rl1 1 0 1 (inject_Z secs) Hmax Hcalls Hw1 eq_refl eq_refl
                  (eq_sym (Z.add_0_r _)) eq_refl) as Hone.
    apply (retried_weaken _ _ _ _ _ 0) in Hone.
    2:{ change 0%Q with (inject_Z 0). rewrite <- Zle_Qle. exact Hsecs. }
    set (api1 := throttled (counted (set_rate_limiter rl1 api))) in *.
    set (w2 := slept (inject_Z secs) (got server (base ++ endpoint) w1)) in *.
    destruct (IH (attempt + 1) api1 w2) as (api' & w' & Hloop & Hrest).
    + unfold api1. cbn. rewrite Hmax. exact Hpos.
    + intros i Hi. destruct Hone as (_ & Hc2 & _). rewrite Hc2.
      replace (calls w + 1 + i)%nat with (calls w + S i)%nat by lia.
      apply Hsrv. lia.
    + exists api', w'. split.
      * cbn [for_attempts]. unfold bind at 1. rewrite Hrun. exact Hloop.
      * pose proof (retried_trans _ _ _ _ _ _ _ _ _ _ _ _ _ _ _ _ Hone Hrest) as H.
        unfold retried in *. cbn [Nat.add] in H.
        destruct H as (A & B & C & D & E & F).
        repeat split; try lia; try congruence.
        clear - F. lra.
Qed.

(** [k] iterations that all meet a transport timeout or error. *)
Lemma for_attempts_transport (endpoint : string) (k : nat) :
  forall (attempt : Z) (api : ClashRoyaleAPI) (w : World),
    0 < max_rps (rate_limiter api) ->
    0 <= attempt ->
    (forall i, (i < k)%nat ->
       reply (server (calls w + i)%nat) = Raise Timeout
       \/ reply (server (calls w + i)%nat) = Raise RequestException) ->
    exists api' w',
      for_attempts server base endpoint k attempt api w = (Ok Next, api', w')
      /\ retried k 0 0 0 (inject_Z (backoff_seconds attempt k)) api w api' w'.
Proof.
  induction k as [|k IH]; intros attempt api w Hpos Hatt Hsrv.
  - exists api, w. split; [reflexivity|apply retried_none].
  - assert (H0 : exists e, reply (server (calls w)) = Raise e
                           /\ (e = Timeout \/ e = RequestException)).
    { specialize (Hsrv 0%nat ltac:(lia)). rewrite Nat.add_0_r in Hsrv.
      destruct Hsrv as [H|H]; eexists; (split; [exact H|]); [left|right]; reflexivity. }
    destruct H0 as (e & H0 & He).
    destruct (attempt_backoff endpoint attempt api w e Hpos Hatt H0 He)
      as (rl1 & w1 & Hrun & Hmax & Hcalls & Hw1).
    pose proof (retried_once (base ++ endpoint) api (set_rate_limiter rl1 api)
                  w w1 rl1 0 0 0 (inject_Z (5 * (attempt + 1))) Hmax Hcalls Hw1 eq_refl
                  (eq_sym (Z.add_0_r _)) (eq_sym (Z.add_0_r _)) (eq_sym (Z.add_0_r _)))
      as Hone.
    set (api1 := set_rate_limiter rl1 api) in *.
    set (w2 := slept (inject_Z (5 * (attempt + 1))) (got server (base ++ endpoint) w1)) in *.
    destruct (IH (attempt + 1) api1 w2) as (api' & w' & Hloop & Hrest).
    + unfold api1. cbn. rewrite Hmax. exact Hpos.
    + lia.
    + intros i Hi. destruct Hone as (_ & Hc2 & _). rewrite Hc2.
      replace (calls w + 1 + i)%nat with (calls w + S i)%nat by lia.
      apply Hsrv. lia.
    + exists api', w'. split.
      * cbn [for_attempts]. unfold bind at 1. rewrite Hrun. exact Hloop.
      * pose proof (retried_trans _ _ _ _ _ _ _ _ _ _ _ _ _ _ _ _ Hone Hrest) as H.
        unfold retried in *. cbn [Nat.add] in H.
        destruct H as (A & B & C & D & E & F).
        repeat split; try lia; try congruence.
        cbn [backoff_seconds]. rewrite inject_Z_plus. exact F.
Qed.

Lemma backoff_seconds_closed (attempt : Z) (n : nat) :
  2 * backoff_seconds attempt n = 5 * Z.of_nat n * (2 * attempt + Z.of_nat n + 1).
Proof.
  revert attempt. induction n as [|n IH]; intros attempt.
  - cbn. lia.
  - cbn [backoff_seconds]. specialize (IH (attempt + 1)). nia.
Qed.

(** Status 429 with a [Retry-After] value that is no number or a negative
    one: [ValueError] leaves the loop body, after the hit is counted and
    before any sleep. *)
Lemma attempt_429_unusable (endpoint : string) (attempt : Z)
      (api : ClashRoyaleAPI) (w : World) (response : Response) :
  0 < max_rps (rate_limiter api) ->
  reply (server (calls w)) = Ok response ->
  status_code response = 429 ->
  (forall secs,
     py_int (headers_get (headers response) "Retry-After" (VInt 60)) = Ok secs ->
     secs < 0) ->
  exists rl1 w1,
    attempt_body server base endpoint attempt api w
      = (Raise ValueError, throttled (counted (set_rate_limiter rl1 api)),
         got server (base ++ endpoint) w1)
    /\ (w1 = w \/ exists d, (0 < d)%Q /\ w1 = slept d w).
Proof.
  intros Hpos Hreply Hst Hbad.
  destruct (attempt_response server base endpoint attempt api w response Hpos Hreply)
    as (rl1 & w1 & Hrun & _ & _ & Hw1).
  exists rl1, w1. split; [|exact Hw1].
  rewrite Hrun. unfold try_except, on_status. rewrite Hst.
  change (429 =? 200) with false. change (429 =? 429) with true. cbv iota.
  unfold bind, incr_rate_limit_hits, lift.
  destruct (py_int (headers_get (headers response) "Retry-After" (VInt 60)))
    as [secs|e] eqn:Hint.
  - specialize (Hbad secs eq_refl). unfold time_sleep.
    assert (Hd : Qltb (inject_Z secs) 0 = true).
    { apply Qltb_lt. change 0%Q with (inject_Z 0). rewrite <- Zlt_Qlt. exact Hbad. }
    rewrite Hd. reflexivity.
  - assert (He : e = ValueError).
    { destruct (headers_get (headers response) "Retry-After" (VInt 60)) as [s|n];
        cbn [py_int] in Hint; [|discriminate Hint].
      unfold int_of_str in Hint.
      destruct (match lstrip s with
                | String "-" r => option_map Z.opp (int_digits r 0 false)
                | String "+" r => int_digits r 0 false
                | r => int_digits r 0 false
                end); [discriminate Hint|congruence]. }
    subst e. reflexivity.
Qed.

(** X9: a call whose first response has status 200 and a body that parses
    returns that payload after exactly one request; nothing happens after
    the request (no retry, no sleep), [total_requests] has grown by 1 and
    the other counters are unchanged. *)
Theorem make_request_200
        (endpoint : string) (max_retries : Z) (api : ClashRoyaleAPI) (w : World)
        (response : Response) (data : json) :
  0 < max_rps (rate_limiter api) ->
  1 <= max_retries ->
  reply (server (calls w)) = Ok response ->
  status_code response = 200 ->
  json_result response = Ok data ->
  exists api' w1,
    _make_request server base endpoint max_retries api w
      = (Ok data, api', got server (base ++ endpoint) w1)
    /\ (w1 = w \/ exists d, (0 < d)%Q /\ w1 = slept d w)
    /\ total_requests api' = total_requests api + 1
    /\ failed_requests api' = failed_requests api
    /\ rate_limit_hits api' = rate_limit_hits api.
Proof.
  intros Hpos Hbudget Hreply Hst Hjson.
  destruct (attempt_200 endpoint 0 api w response data Hpos Hreply Hst Hjson)
    as (rl1 & w1 & Hrun & _ & _ & Hw1).
  exists (counted (set_rate_limiter rl1 api)), w1.
  split; [exact (make_request_first_returns _ _ _ _ _ _ _ Hbudget Hrun)|].
  split; [exact Hw1|repeat split; reflexivity].
Qed.

(** X10: a status without a branch of its own is counted as a failure even
    when the call succeeds in the end: after [k] such responses and then a
    200 with a body that parses, the call returns the payload and
    [failed_requests] has grown by [k]. *)
Theorem make_request_succeeds_after_failures
        (endpoint : string) (max_retries : Z) (api : ClashRoyaleAPI) (w : World)
        (k : nat) (response : Response) (data : json) :
  0 < max_rps (rate_limiter api) ->
  (k < Z.to_nat max_retries)%nat ->
  (forall i, (i < k)%nat ->
     exists failure,
       reply (server (calls w + i)%nat) = Ok failure
       /\ unclassified (status_code failure)) ->
  reply (server (calls w + k)%nat) = Ok response ->
  status_code response = 200 ->
  json_result response = Ok data ->
  let run := _make_request server base endpoint max_retries api w in
  result_of run = Ok data
  /\ failed_requests (self_after run) = failed_requests api + Z.of_nat k
  /\ total_requests (self_after run) = total_requests api + Z.of_nat k + 1
  /\ rate_limit_hits (self_after run) = rate_limit_hits api
  /\ calls (world_after run) = (calls w + k + 1)%nat.
Proof.
  intros Hpos Hk Hfail Hreply Hst Hjson.
  destruct (for_attempts_unclassified server base endpoint k 0 api w Hpos Hfail)
    as (api1 & w1 & Hloop & Ht & Hf & Hh & Hc).
  assert (Hpos1 : 0 < max_rps (rate_limiter api1)).
  { destruct (for_attempts_advanced server base endpoint k 0 api w) as (n & _ & Hadv).
    rewrite Hloop in Hadv. destruct Hadv as (_ & _ & Hm & _).
    unfold self_after in Hm. cbn [fst snd] in Hm. rewrite Hm. exact Hpos. }
  rewrite <- Hc in Hreply.
  destruct (attempt_200 endpoint (0 + Z.of_nat k) api1 w1 response data
              Hpos1 Hreply Hst Hjson)
    as (rl2 & w2 & Hrun & _ & Hc2 & _).
  assert (Hcall : _make_request server base endpoint max_retries api w
                  = (Ok data, counted (set_rate_limiter rl2 api1),
                     got server (base ++ endpoint) w2)).
  { unfold _make_request.
    replace (Z.to_nat max_retries) with (k + S (Z.to_nat max_retries - S k))%nat by lia.
    unfold bind. rewrite for_attempts_app, Hloop.
    cbn [for_attempts]. unfold bind. rewrite Hrun. reflexivity. }
  cbv zeta. rewrite Hcall. unfold result_of, self_after, world_after, counted, got.
  cbn [fst snd total_requests failed_requests rate_limit_hits set_rate_limiter calls].
  repeat split; lia.
Qed.

(** X11: being rate limited is not counted as a failure when a later
    attempt succeeds: after [k] responses with status 429 (and a
    [Retry-After] value that [int] reads as a number that is not negative),
    then a 200 with a body that parses, the call returns the payload,
    [rate_limit_hits] has grown by [k] and [failed_requests] is unchanged. *)
Theorem make_request_succeeds_after_throttling
        (endpoint : string) (max_retries : Z) (api : ClashRoyaleAPI) (w : World)
        (k : nat) (response : Response) (data : json) :
  0 < max_rps (rate_limiter api) ->
  (k < Z.to_nat max_retries)%nat ->
  (forall i, (i < k)%nat ->
     exists throttle secs,
       reply (server (calls w + i)%nat) = Ok throttle
       /\ status_code throttle = 429
       /\ py_int (headers_get (headers throttle) "Retry-After" (VInt 60)) = Ok secs
       /\ 0 <= secs) ->
  reply (server (calls w + k)%nat) = Ok response ->
  status_code response = 200 ->
  json_result response = Ok data ->
  let run := _make_request server base endpoint max_retries api w in
  result_of run = Ok data
  /\ rate_limit_hits (self_after run) = rate_limit_hits api + Z.of_nat k
  /\ failed_requests (self_after run) = failed_requests api
  /\ total_requests (self_after run) = total_requests api + Z.of_nat k + 1.
Proof.
  intros Hpos Hk Hthr Hreply Hst Hjson.
  destruct (for_attempts_throttled endpoint k 0 api w Hpos Hthr)
    as (api1 & w1 & Hloop & Hm & Hc & Ht & Hf & Hh & _).
  assert (Hpos1 : 0 < max_rps (rate_limiter api1)) by (rewrite Hm; exact Hpos).
  rewrite <- Hc in Hreply.
  destruct (attempt_200 endpoint (0 + Z.of_nat k) api1 w1 response data
              Hpos1 Hreply Hst Hjson)
    as (rl2 & w2 & Hrun & _ & Hc2 & _).
  assert (Hcall : _make_request server base endpoint max_retries api w
                  = (Ok data, counted (set_rate_limiter rl2 api1),
                     got server (base ++ endpoint) w2)).
  { unfold _make_request.
    replace (Z.to_nat max_retries) with (k + S (Z.to_nat max_retries - S k))%nat by lia.
    unfold bind. rewrite for_attempts_app, Hloop.
    cbn [for_attempts]. unfold bind. rewrite Hrun. reflexivity. }
  cbv zeta. rewrite Hcall. unfold result_of, self_after, counted.
  cbn [fst snd total_requests failed_requests rate_limit_hits set_rate_limiter].
  repeat split; lia.
Qed.

(** X12: a call that is rate limited on every attempt returns [None] and
    is counted as one failure: [rate_limit_hits] and [total_requests] have
    grown by [max_retries], [failed_requests] by 1. *)
Theorem make_request_all_throttled
        (endpoint : string) (max_retries : Z) (api : ClashRoyaleAPI) (w : World) :
  0 < max_rps (rate_limiter api) ->
  0 <= max_retries ->
  (forall i, (i < Z.to_nat max_retries)%nat ->
     exists throttle secs,
       reply (server (calls w + i)%nat) = Ok throttle
       /\ status_code throttle = 429
       /\ py_int (headers_get (headers throttle) "Retry-After" (VInt 60)) = Ok secs
       /\ 0 <= secs) ->
  let run := _make_request server base endpoint max_retries api w in
  result_of run = Ok JNull
  /\ rate_limit_hits (self_after run) = rate_limit_hits api + max_retries
  /\ total_requests (self_after run) = total_requests api + max_retries
  /\ failed_requests (self_after run) = failed_requests api + 1.
Proof.
  intros Hpos Hbudget Hthr.
  destruct (for_attempts_throttled endpoint (Z.to_nat max_retries) 0 api w Hpos Hthr)
    as (api1 & w1 & Hloop & _ & _ & Ht & Hf & Hh & _).
  assert (Hcall : _make_request server base endpoint max_retries api w
                  = (Ok JNull, failed api1, w1)).
  { unfold _make_request, bind. rewrite Hloop. reflexivity. }
  cbv zeta. rewrite Hcall. unfold result_of, self_after, failed.
  cbn [fst snd total_requests failed_requests rate_limit_hits].
  repeat split; lia.
Qed.

(** X13: a call that receives status 503 on every attempt sleeps 300
    seconds after each of them, the last one included, so it blocks its
    caller for at least [300 * max_retries] seconds before it returns
    [None]; it is counted as one failure. *)
Theorem make_request_all_maintenance
        (endpoint : string) (max_retries : Z) (api : ClashRoyaleAPI) (w : World) :
  0 < max_rps (rate_limiter api) ->
  0 <= max_retries ->
  (forall i, (i < Z.to_nat max_retries)%nat ->
     exists response,
       reply (server (calls w + i)%nat) = Ok response
       /\ status_code response = 503) ->
  let run := _make_request server base endpoint max_retries api w in
  result_of run = Ok JNull
  /\ (slept_seconds (trace w) + inject_Z (300 * max_retries)
      <= slept_seconds (trace (world_after run)))%Q
  /\ failed_requests (self_after run) = failed_requests api + 1
  /\ total_requests (self_after run) = total_requests api + max_retries
  /\ rate_limit_hits (self_after run) = rate_limit_hits api.
Proof.
  intros Hpos Hbudget Hsrv.
  destruct (for_attempts_maintenance endpoint (Z.to_nat max_retries) 0 api w Hpos Hsrv)
    as (api1 & w1 & Hloop & _ & _ & Ht & Hf & Hh & Hs).
  assert (Hcall : _make_request server base endpoint max_retries api w
                  = (Ok JNull, failed api1, w1)).
  { unfold _make_request, bind. rewrite Hloop. reflexivity. }
  cbv zeta. rewrite Hcall. unfold result_of, self_after, world_after, failed.
  cbn [fst snd total_requests failed_requests rate_limit_hits].
  rewrite Z2Nat.id in Hs, Ht by exact Hbudget.
  split; [reflexivity|]. split; [exact Hs|]. repeat split; lia.
Qed.

(** X14: linear backoff.  A call whose every attempt meets a transport
    timeout or a transport error sleeps 5, 10, 15, ... seconds after the
    attempts, the last one included, so it blocks its caller for at least
    [5 * max_retries * (max_retries + 1) / 2] seconds (30 for the default
    budget of 3) before it returns [None]; it is counted as one failure and
    [total_requests] is unchanged. *)
Theorem make_request_backoff
        (endpoint : string) (max_retries : Z) (api : ClashRoyaleAPI) (w : World) :
  0 < max_rps (rate_limiter api) ->
  0 <= max_retries ->
  (forall i, (i < Z.to_nat max_retries)%nat ->
     reply (server (calls w + i)%nat) = Raise Timeout
     \/ reply (server (calls w + i)%nat) = Raise RequestException) ->
  let run := _make_request server base endpoint max_retries api w in
  result_of run = Ok JNull
  /\ (slept_seconds (trace w) + inject_Z (5 * (max_retries * (max_retries + 1) / 2))
      <= slept_seconds (trace (world_after run)))%Q
  /\ failed_requests (self_after run) = failed_requests api + 1
  /\ total_requests (self_after run) = total_requests api
  /\ rate_limit_hits (self_after run) = rate_limit_hits api.
Proof.
  intros Hpos Hbudget Hsrv.
  destruct (for_attempts_transport endpoint (Z.to_nat max_retries) 0 api w
              Hpos (Z.le_refl 0) Hsrv)
    as (api1 & w1 & Hloop & _ & _ & Ht & Hf & Hh & Hs).
  assert (Hcall : _make_request server base endpoint max_retries api w
                  = (Ok JNull, failed api1, w1)).
  { unfold _make_request, bind. rewrite Hloop. reflexivity. }
  assert (Hsum : backoff_seconds 0 (Z.to_nat max_retries)
                 = 5 * (max_retries * (max_retries + 1) / 2)).
  { pose proof (backoff_seconds_closed 0 (Z.to_nat max_retries)) as Hc.
    rewrite Z2Nat.id in Hc by exact Hbudget.
    assert (Heven : exists q, max_retries * (max_retries + 1) = 2 * q).
    { destruct (Z.Even_or_Odd max_retries) as [[q Hq]|[q Hq]].
      - exists (q * (max_retries + 1)). rewrite Hq at 1. ring.
      - exists (max_retries * (q + 1)). rewrite Hq at 2. ring. }
    destruct Heven as (q & Hq). rewrite Hq.
    replace (2 * q / 2) with q by (symmetry; rewrite Z.mul_comm; apply Z.div_mul; lia).
    nia. }
  cbv zeta. rewrite Hcall. unfold result_of, self_after, world_after, failed.
  cbn [fst snd total_requests failed_requests rate_limit_hits].
  rewrite Hsum in Hs.
  split; [reflexivity|]. split; [exact Hs|]. repeat split; lia.
Qed.

(** X15: a 429 response whose [Retry-After] value is no number ([int]
    fails) or a negative number ([time.sleep] fails) makes the call raise
    [ValueError] at once: the hit and the request are counted, there is no
    sleep after the request and no retry. *)
Theorem make_request_unusable_retry_after
        (endpoint : string) (max_retries : Z) (api : ClashRoyaleAPI) (w : World)
        (response : Response) :
  0 < max_rps (rate_limiter api) ->
  1 <= max_retries ->
  reply (server (calls w)) = Ok response ->
  status_code response = 429 ->
  (forall secs,
     py_int (headers_get (headers response) "Retry-After" (VInt 60)) = Ok secs ->
     secs < 0) ->
  exists api' w1,
    _make_request server base endpoint max_retries api w
      = (Raise ValueError, api', got server (base ++ endpoint) w1)
    /\ (w1 = w \/ exists d, (0 < d)%Q /\ w1 = slept d w)
    /\ rate_limit_hits api' = rate_limit_hits api + 1
    /\ total_requests api' = total_requests api + 1
    /\ failed_requests api' = failed_requests api.
Proof.
  intros Hpos Hbudget Hreply Hst Hbad.
  destruct (attempt_429_unusable endpoint 0 api w response Hpos Hreply Hst Hbad)
    as (rl1 & w1 & Hrun & Hw1).
  exists (throttled (counted (set_rate_limiter rl1 api))), w1.
  split; [|split; [exact Hw1|repeat split; reflexivity]].
  unfold _make_request.
  destruct (Z.to_nat max_retries) as [|n] eqn:Hn; [lia|].
  cbn [for_attempts]. unfold bind. rewrite Hrun. reflexivity.
Qed.

End Retry.

Lemma make_request_200_witness :
  exists api' w1,
    _make_request (server_ok (JList [])) "" "/cards" 3 ClashRoyaleAPI_init world0
      = (Ok (JList []), api', got (server_ok (JList [])) ("" ++ "/cards") w1)
    /\ (w1 = world0 \/ exists d, (0 < d)%Q /\ w1 = slept d world0)
    /\ total_requests api' = 0 + 1
    /\ failed_requests api' = 0
    /\ rate_limit_hits api' = 0.
Proof.
  apply (make_request_200 (server_ok (JList [])) "" "/cards" 3 ClashRoyaleAPI_init world0
           {| status_code := 200; headers := []; json_result := Ok (JList []) |}).
  - reflexivity.
  - lia.
  - reflexivity.
  - reflexivity.
  - reflexivity.
Defined.

Lemma make_request_succeeds_after_failures_witness :
  let server := server_then 2 server_500 (server_ok (JList [])) in
  let run := _make_request server "" "/cards" 3 ClashRoyaleAPI_init world0 in
  result_of run = Ok (JList [])
  /\ failed_requests (self_after run) = 0 + Z.of_nat 2
  /\ total_requests (self_after run) = 0 + Z.of_nat 2 + 1
  /\ rate_limit_hits (self_after run) = 0
  /\ calls (world_after run) = (0 + 2 + 1)%nat.
Proof.
  apply (make_request_succeeds_after_failures
           (server_then 2 server_500 (server_ok (JList []))) "" "/cards" 3
           ClashRoyaleAPI_init world0 2
           {| status_code := 200; headers := []; json_result := Ok (JList []) |}).
  - reflexivity.
  - vm_compute. lia.
  - intros i Hi. destruct i as [|[|i]]; [| |lia];
      (eexists; split; [reflexivity|unfold unclassified; cbn; lia]).
  - reflexivity.
  - reflexivity.
  - reflexivity.
Defined.

Lemma make_request_succeeds_after_throttling_witness :
  let server := server_then 2 (server_429 [("Retry-After", "1")]) (server_ok (JList [])) in
  let run := _make_request server "" "/cards" 3 ClashRoyaleAPI_init world0 in
  result_of run = Ok (JList [])
  /\ rate_limit_hits (self_after run) = 0 + Z.of_nat 2
  /\ failed_requests (self_after run) = 0
  /\ total_requests (self_after run) = 0 + Z.of_nat 2 + 1.
Proof.
  apply (make_request_succeeds_after_throttling
           (server_then 2 (server_429 [("Retry-After", "1")]) (server_ok (JList [])))
           "" "/cards" 3 ClashRoyaleAPI_init world0 2
           {| status_code := 200; headers := []; json_result := Ok (JList []) |}).
  - reflexivity.
  - vm_compute. lia.
  - intros i Hi. destruct i as [|[|i]]; [| |lia];
      (eexists; exists 1; repeat split; try reflexivity; lia).
  - reflexivity.
  - reflexivity.
  - reflexivity.
Defined.

Lemma make_request_all_throttled_witness :
  let run := _make_request (server_429 []) "" "/cards" 3 ClashRoyaleAPI_init world0 in
  result_of run = Ok JNull
  /\ rate_limit_hits (self_after run) = 0 + 3
  /\ total_requests (self_after run) = 0 + 3
  /\ failed_requests (self_after run) = 0 + 1.
Proof.
  apply (make_request_all_throttled (server_429 []) "" "/cards" 3
           ClashRoyaleAPI_init world0).
  - reflexivity.
  - lia.
  - intros i _. eexists. exists 60. repeat split; try reflexivity. lia.
Defined.

Lemma make_request_all_maintenance_witness :
  let run := _make_request server_503 "" "/cards" 3 ClashRoyaleAPI_init world0 in
  result_of run = Ok JNull
  /\ (slept_seconds (trace world0) + inject_Z (300 * 3)
      <= slept_seconds (trace (world_after run)))%Q
  /\ failed_requests (self_after run) = 0 + 1
  /\ total_requests (self_after run) = 0 + 3
  /\ rate_limit_hits (self_after run) = 0.
Proof.
  apply (make_request_all_maintenance server_503 "" "/cards" 3
           ClashRoyaleAPI_init world0).
  - reflexivity.
  - lia.
  - intros i _. eexists. split; reflexivity.
Defined.

Lemma make_request_backoff_witness :
  let run := _make_request server_error "" "/cards" 3 ClashRoyaleAPI_init world0 in
  result_of run = Ok JNull
  /\ (slept_seconds (trace world0) + inject_Z (5 * (3 * (3 + 1) / 2))
      <= slept_seconds (trace (world_after run)))%Q
  /\ failed_requests (self_after run) = 0 + 1
  /\ total_requests (self_after run) = 0
  /\ rate_limit_hits (self_after run) = 0.
Proof.
  apply (make_request_backoff server_error "" "/cards" 3 ClashRoyaleAPI_init world0).
  - reflexivity.
  - lia.
  - intros i _. right. reflexivity.
Defined.

Lemma make_request_unusable_retry_after_witness :
  exists api' w1,
    _make_request (server_429 [("Retry-After", "-1")]) "" "/cards" 3
      ClashRoyaleAPI_init world0
      = (Raise ValueError, api',
         got (server_429 [("Retry-After", "-1")]) ("" ++ "/cards") w1)
    /\ (w1 = world0 \/ exists d, (0 < d)%Q /\ w1 = slept d world0)
    /\ rate_limit_hits api' = 0 + 1
    /\ total_requests api' = 0 + 1
    /\ failed_requests api' = 0.
Proof.
  apply (make_request_unusable_retry_after (server_429 [("Retry-After", "-1")])
           "" "/cards" 3 ClashRoyaleAPI_init world0
           {| status_code := 429; headers := [("Retry-After", "-1")];
              json_result := Ok (JDict [("reason", JStr "requestThrottled")]) |}).
  - reflexivity.
  - lia.
  - reflexivity.
  - reflexivity.
  - intros secs H. vm_compute in H. injection H as <-. lia.
Defined.

(** ** The accessors *)

Section Accessors.

Variable server : nat -> NetReply.
Variable base : string.

Lemma make_request_payload (endpoint : string) (api : ClashRoyaleAPI) (w : World)
      (response : Response) (data : json) :
  0 < max_rps (rate_limiter api) ->
  reply (server (calls w)) = Ok response ->
  status_code response = 200 ->
  json_result response = Ok data ->
  exists rl1 w1,
    _make_request server base endpoint 3 api w
      = (Ok data, counted (set_rate_limiter rl1 api), got server (base ++ endpoint) w1)
    /\ (w1 = w \/ exists d, (0 < d)%Q /\ w1 = slept d w).
Proof.
  intros Hpos Hreply Hst Hjson.
  destruct (attempt_200 server base endpoint 0 api w response data Hpos Hreply Hst Hjson)
    as (rl1 & w1 & Hrun & _ & _ & Hw1).
  exists rl1, w1. split; [|exact Hw1].
  apply make_request_first_returns; [lia|exact Hrun].
Qed.

Lemma make_request_absent (endpoint : string) (api : ClashRoyaleAPI) (w : World)
      (response : Response) :
  0 < max_rps (rate_limiter api) ->
  reply (server (calls w)) = Ok response ->
  status_code response = 404 ->
  exists rl1 w1,
    _make_request server base endpoint 3 api w
      = (Ok JNull, counted (set_rate_limiter rl1 api), got server (base ++ endpoint) w1)
    /\ (w1 = w \/ exists d, (0 < d)%Q /\ w1 = slept d w).
Proof.
  intros Hpos Hreply Hst.
  destruct (attempt_404 server base endpoint 0 api w response Hpos Hreply Hst)
    as (rl1 & w1 & Hrun & _ & _ & Hw1).
  exists rl1, w1. split; [|exact Hw1].
  apply make_request_first_returns; [lia|exact Hrun].
Qed.

Lemma get_top_players_endpoint (location : string) (limit : Z) :
  get_top_players server base location limit
  = (data <- _make_request server base (top_players_endpoint location limit) 3 ;;
     failed <- lift (no_items data) ;;
     if failed then ret []
     else
       items <- lift (py_getitem data "items") ;;
       players <- lift (py_iter items) ;;
       lift (list_comp (fun player => py_getitem player "tag") players))%py.
Proof.
  unfold get_top_players, top_players_endpoint.
  destruct (limit =? 0); reflexivity.
Qed.

Lemma tags_of_entries (items tags : list json) :
  Forall2 (fun item tag =>
             exists entry, item = JDict entry /\ assoc "tag" entry = Some tag)
          items tags ->
  list_comp (fun player => py_getitem player "tag") items = Ok tags.
Proof.
  induction 1 as [|item tag items tags (entry & -> & Htag) _ IH].
  - reflexivity.
  - cbn [list_comp py_getitem]. rewrite Htag, IH. reflexivity.
Qed.

(** X16: when the first response is a 200 whose payload is a mapping with
    a list under ["items"] and every entry of the list is a mapping with a
    ["tag"], [get_top_players] returns the tags of the entries, in order,
    after one request to
    [base_url/locations/<location>/rankings/players?limit=<limit>] (no
    query string for a limit of 0). *)
Theorem get_top_players_tags
        (location : string) (limit : Z) (api : ClashRoyaleAPI) (w : World)
        (response : Response) (fields : list (string * json)) (items tags : list json) :
  0 < max_rps (rate_limiter api) ->
  reply (server (calls w)) = Ok response ->
  status_code response = 200 ->
  json_result response = Ok (JDict fields) ->
  assoc "items" fields = Some (JList items) ->
  Forall2 (fun item tag =>
             exists entry, item = JDict entry /\ assoc "tag" entry = Some tag)
          items tags ->
  exists api' w1,
    get_top_players server base location limit api w
    = (Ok tags, api',
       got server (base ++ top_players_endpoint location limit) w1)
    /\ (w1 = w \/ exists d, (0 < d)%Q /\ w1 = slept d w)
    /\ failed_requests api' = failed_requests api.
Proof.
  intros Hpos Hreply Hst Hjson Hitems Htags.
  destruct (make_request_payload (top_players_endpoint location limit) api w
              response (JDict fields) Hpos Hreply Hst Hjson)
    as (rl1 & w1 & Hcall & Hw1).
  exists (counted (set_rate_limiter rl1 api)), w1.
  split; [|split; [exact Hw1|reflexivity]].
  rewrite get_top_players_endpoint. unfold bind at 1. rewrite Hcall.
  unfold bind, lift, no_items, py_contains.
  cbn [truthy]. destruct fields as [|field fields].
  - discriminate Hitems.
  - cbn [negb py_getitem]. rewrite Hitems. cbn [negb py_iter].
    rewrite (tags_of_entries items tags Htags). reflexivity.
Qed.

(** Whenever the request yields [None], the accessors yield their empty
    values and do nothing else. *)
Lemma accessors_none (api api' : ClashRoyaleAPI) (w w' : World) :
  (forall location limit,
     _make_request server base (top_players_endpoint location limit) 3 api w
     = (Ok JNull, api', w') ->
     get_top_players server base location limit api w = (Ok [], api', w'))
  /\ (forall player_tag,
        _make_request server base ("/players/" ++ encoded_tag player_tag) 3 api w
        = (Ok JNull, api', w') ->
        get_player_info server base player_tag api w = (Ok JNull, api', w'))
  /\ (forall player_tag,
        _make_request server base ("/players/" ++ encoded_tag player_tag ++ "/battlelog")
          3 api w
        = (Ok JNull, api', w') ->
        get_player_battles server base player_tag api w = (Ok [], api', w'))
  /\ (_make_request server base "/cards" 3 api w = (Ok JNull, api', w') ->
      get_cards server base api w = (Ok (JList []), api', w')).
Proof.
  split; [|split; [|split]].
  - intros location limit H. rewrite get_top_players_endpoint.
    unfold bind at 1. rewrite H. reflexivity.
  - intros player_tag H. unfold get_player_info, bind. rewrite H. reflexivity.
  - intros player_tag H. unfold get_player_battles, bind. rewrite H. reflexivity.
  - intros H. unfold get_cards, bind at 1. rewrite H. reflexivity.
Qed.

(** X17: when the first response has status 404, every accessor returns
    its empty value ([[]], [None], [[]], [[]]) after that one request, and
    no failure is counted. *)
Theorem accessors_not_found
        (location player_tag : string) (limit : Z)
        (api : ClashRoyaleAPI) (w : World) (response : Response) :
  0 < max_rps (rate_limiter api) ->
  reply (server (calls w)) = Ok response ->
  status_code response = 404 ->
  let top := get_top_players server base location limit api w in
  let info := get_player_info server base player_tag api w in
  let battles := get_player_battles server base player_tag api w in
  let cards := get_cards server base api w in
  (result_of top = Ok []
   /\ failed_requests (self_after top) = failed_requests api
   /\ calls (world_after top) = S (calls w))
  /\ (result_of info = Ok JNull
      /\ failed_requests (self_after info) = failed_requests api
      /\ calls (world_after info) = S (calls w))
  /\ (result_of battles = Ok []
      /\ failed_requests (self_after battles) = failed_requests api
      /\ calls (world_after battles) = S (calls w))
  /\ (result_of cards = Ok (JList [])
      /\ failed_requests (self_after cards) = failed_requests api
      /\ calls (world_after cards) = S (calls w)).
Proof.
  intros Hpos Hreply Hst.
  assert (Hgen : forall endpoint,
             exists api' w',
               _make_request server base endpoint 3 api w = (Ok JNull, api', w')
               /\ failed_requests api' = failed_requests api
               /\ calls w' = S (calls w)).
  { intros endpoint.
    destruct (make_request_absent endpoint api w response Hpos Hreply Hst)
      as (rl1 & w1 & Hcall & Hw1).
    eexists. eexists. split; [exact Hcall|]. split; [reflexivity|].
    unfold got. cbn [calls]. destruct Hw1 as [->|(d & _ & ->)]; reflexivity. }
  cbv zeta. split; [|split; [|split]].
  - destruct (Hgen (top_players_endpoint location limit)) as (api' & w' & Hcall & Hf & Hc).
    rewrite (proj1 (accessors_none api api' w w') location limit Hcall).
    repeat split; assumption.
  - destruct (Hgen ("/players/" ++ encoded_tag player_tag)) as (api' & w' & Hcall & Hf & Hc).
    rewrite (proj1 (proj2 (accessors_none api api' w w')) player_tag Hcall).
    repeat split; assumption.
  - destruct (Hgen ("/players/" ++ encoded_tag player_tag ++ "/battlelog"))
      as (api' & w' & Hcall & Hf & Hc).
    rewrite (proj1 (proj2 (proj2 (accessors_none api api' w w'))) player_tag Hcall).
    repeat split; assumption.
  - destruct (Hgen "/cards") as (api' & w' & Hcall & Hf & Hc).
    rewrite (proj2 (proj2 (proj2 (accessors_none api api' w w'))) Hcall).
    repeat split; assumption.
Qed.


(** X19: on a first response 200 with a body that parses,
    [get_player_battles] returns the payload when it is a list and the
    empty list for every other payload (a mapping, a string, a number,
    [null]); it never raises on a payload. *)
Theorem get_player_battles_payload
        (player_tag : string) (api : ClashRoyaleAPI) (w : World)
        (response : Response) (data : json) :
  0 < max_rps (rate_limiter api) ->
  reply (server (calls w)) = Ok response ->
  status_code response = 200 ->
  json_result response = Ok data ->
  exists api' w1,
    get_player_battles server base player_tag api w
    = (Ok (match data with JList battles => battles | _ => [] end), api',
       got server (base ++ "/players/" ++ encoded_tag player_tag ++ "/battlelog") w1)
    /\ (w1 = w \/ exists d, (0 < d)%Q /\ w1 = slept d w).
Proof.
  intros Hpos Hreply Hst Hjson.
  destruct (make_request_payload ("/players/" ++ encoded_tag player_tag ++ "/battlelog")
              api w response data Hpos Hreply Hst Hjson)
    as (rl1 & w1 & Hcall & Hw1).
  exists (counted (set_rate_limiter rl1 api)), w1. split; [|exact Hw1].
  unfold get_player_battles, bind. rewrite Hcall.
  destruct data as [|b|q|s|l|d]; cbn [truthy negb]; try reflexivity.
  - destruct (negb b); reflexivity.
  - destruct (negb (negb (Qeq_bool q 0))); reflexivity.
  - destruct (negb (negb (String.eqb s ""))); reflexivity.
  - destruct l; reflexivity.
  - destruct d; reflexivity.
Qed.

(** X20: on a first response 200 whose payload is a mapping, [get_cards]
    returns what the mapping holds under ["items"], whatever that is, and
    the empty list when the mapping has no such key. *)
Theorem get_cards_payload
        (api : ClashRoyaleAPI) (w : World)
        (response : Response) (fields : list (string * json)) :
  0 < max_rps (rate_limiter api) ->
  reply (server (calls w)) = Ok response ->
  status_code response = 200 ->
  json_result response = Ok (JDict fields) ->
  exists api' w1,
    get_cards server base api w
    = (Ok (match assoc "items" fields with Some cards => cards | None => JList [] end),
       api', got server (base ++ "/cards") w1)
    /\ (w1 = w \/ exists d, (0 < d)%Q /\ w1 = slept d w).
Proof.
  intros Hpos Hreply Hst Hjson.
  destruct (make_request_payload "/cards" api w response (JDict fields)
              Hpos Hreply Hst Hjson)
    as (rl1 & w1 & Hcall & Hw1).
  exists (counted (set_rate_limiter rl1 api)), w1. split; [|exact Hw1].
  unfold get_cards, bind at 1. rewrite Hcall.
  unfold bind, lift, no_items, py_contains. cbn [truthy].
  destruct fields as [|field fields]; [reflexivity|].
  cbn [negb py_getitem].
  destruct (assoc "items" (field :: fields)); reflexivity.
Qed.

(** X21: on a first response 200 whose payload is a mapping without an
    ["items"] key, [get_top_players] returns the empty list. *)
Theorem get_top_players_without_items
        (location : string) (limit : Z) (api : ClashRoyaleAPI) (w : World)
        (response : Response) (fields : list (string * json)) :
  0 < max_rps (rate_limiter api) ->
  reply (server (calls w)) = Ok response ->
  status_code response = 200 ->
  json_result response = Ok (JDict fields) ->
  assoc "items" fields = None ->
  result_of (get_top_players server base location limit api w) = Ok [].
Proof.
  intros Hpos Hreply Hst Hjson Hnone.
  destruct (make_request_payload (top_players_endpoint location limit) api w
              response (JDict fields) Hpos Hreply Hst Hjson)
    as (rl1 & w1 & Hcall & _).
  rewrite get_top_players_endpoint. unfold bind at 1. rewrite Hcall.
  unfold bind, lift, no_items, py_contains. cbn [truthy].
  destruct fields as [|field fields]; [reflexivity|].
  cbn [negb]. rewrite Hnone. reflexivity.
Qed.

(** X22: a payload that is the JSON value [true] or a number other than 0
    makes [get_top_players] and [get_cards] raise [TypeError]: it is truthy
    and ['items' not in data] is not defined on it. *)
Theorem scalar_payload_raises
        (location : string) (limit : Z) (api : ClashRoyaleAPI) (w : World)
        (response : Response) (data : json) :
  0 < max_rps (rate_limiter api) ->
  reply (server (calls w)) = Ok response ->
  status_code response = 200 ->
  json_result response = Ok data ->
  data = JBool true \/ (exists q, data = JNum q /\ ~ (q == 0)%Q) ->
  result_of (get_top_players server base location limit api w) = Raise TypeError
  /\ result_of (get_cards server base api w) = Raise TypeError.
Proof.
  intros Hpos Hreply Hst Hjson Hdata.
  assert (Hno : no_items data = Raise TypeError).
  { destruct Hdata as [->|(q & -> & Hq)]; [reflexivity|].
    unfold no_items. cbn [truthy].
    destruct (Qeq_bool q 0) eqn:E; [|reflexivity].
    apply Qeq_bool_iff in E. contradiction. }
  split.
  - destruct (make_request_payload (top_players_endpoint location limit) api w
                response data Hpos Hreply Hst Hjson)
      as (rl1 & w1 & Hcall & _).
    rewrite get_top_players_endpoint. unfold bind at 1. rewrite Hcall.
    unfold bind, lift. rewrite Hno. reflexivity.
  - destruct (make_request_payload "/cards" api w response data Hpos Hreply Hst Hjson)
      as (rl1 & w1 & Hcall & _).
    unfold get_cards, bind at 1. rewrite Hcall.
    unfold bind, lift. rewrite Hno. reflexivity.
Qed.

(** The accessors leave the world as their request left it. *)
Lemma accessors_world (api : ClashRoyaleAPI) (w : World) :
  (forall location limit,
     world_after (get_top_players server base location limit api w)
     = world_after (_make_request server base (top_players_endpoint location limit) 3 api w))
  /\ (forall player_tag,
        world_after (get_player_info server base player_tag api w)
        = world_after (_make_request server base
                         ("/players/" ++ encoded_tag player_tag) 3 api w))
  /\ (forall player_tag,
        world_after (get_player_battles server base player_tag api w)
        = world_after (_make_request server base
                         ("/players/" ++ encoded_tag player_tag ++ "/battlelog") 3 api w))
  /\ world_after (get_cards server base api w)
     = world_after (_make_request server base "/cards" 3 api w).
Proof.
  split; [|split; [|split]].
  - intros location limit. rewrite get_top_players_endpoint. unfold bind, lift.
    destruct (_make_request server base (top_players_endpoint location limit) 3 api w)
      as [[[data|e] api'] w']; [|reflexivity].
    destruct (no_items data) as [[|]|e]; try reflexivity.
    destruct (py_getitem data "items") as [items|e]; [|reflexivity].
    destruct (py_iter items) as [players|e]; reflexivity.
  - intros player_tag. unfold get_player_info, bind.
    destruct (_make_request server base ("/players/" ++ encoded_tag player_tag) 3 api w)
      as [[[data|e] api'] w']; reflexivity.
  - intros player_tag. unfold get_player_battles, bind.
    destruct (_make_request server base
                ("/players/" ++ encoded_tag player_tag ++ "/battlelog") 3 api w)
      as [[[data|e] api'] w']; [|reflexivity].
    destruct (negb (truthy data)); [reflexivity|].
    destruct data; reflexivity.
  - unfold get_cards, bind, lift.
    destruct (_make_request server base "/cards" 3 api w)
      as [[[data|e] api'] w']; [|reflexivity].
    destruct (no_items data) as [[|]|e]; reflexivity.
Qed.

(** X23: whatever the server does, every accessor makes at most three
    requests, all of them to its own URL: the leaderboard of the location,
    [/players/<encoded tag>], [/players/<encoded tag>/battlelog], [/cards]. *)
Theorem accessors_requests
        (location player_tag : string) (limit : Z) (api : ClashRoyaleAPI) (w : World) :
  let within (url : string) (w' : World) :=
    exists evs,
      trace w' = (trace w ++ evs)%list
      /\ Forall (own_event url) evs
      /\ (List.length (gets evs) <= 3)%nat in
  within (base ++ top_players_endpoint location limit)
         (world_after (get_top_players server base location limit api w))
  /\ within (base ++ "/players/" ++ encoded_tag player_tag)
            (world_after (get_player_info server base player_tag api w))
  /\ within (base ++ "/players/" ++ encoded_tag player_tag ++ "/battlelog")
            (world_after (get_player_battles server base player_tag api w))
  /\ within (base ++ "/cards") (world_after (get_cards server base api w)).
Proof.
  assert (Hgen : forall endpoint,
             exists evs,
               trace (world_after (_make_request server base endpoint 3 api w))
               = (trace w ++ evs)%list
               /\ Forall (own_event (base ++ endpoint)) evs
               /\ (List.length (gets evs) <= 3)%nat).
  { intros endpoint.
    destruct (make_request_advanced server base endpoint 3 api w)
      as (n & Hn & (evs & Htrace & Hown & Hgets) & _).
    exists evs. rewrite Hgets. change (Z.to_nat 3) with 3%nat in Hn.
    repeat split; assumption. }
  destruct (accessors_world api w) as (Htop & Hinfo & Hbattles & Hcards).
  cbv zeta. rewrite Htop, Hinfo, Hbattles, Hcards.
  repeat split; apply Hgen.
Qed.

End Accessors.

Lemma get_top_players_tags_witness :
  let page := JDict [("items", JList [JDict [("tag", JStr "#A")];
                                      JDict [("name", JStr "b"); ("tag", JStr "#B")]])] in
  exists api' w1,
    get_top_players (server_ok page) "" "global" 200 ClashRoyaleAPI_init world0
    = (Ok [JStr "#A"; JStr "#B"], api',
       got (server_ok page) ("" ++ top_players_endpoint "global" 200) w1)
    /\ (w1 = world0 \/ exists d, (0 < d)%Q /\ w1 = slept d world0)
    /\ failed_requests api' = 0.
Proof.
  apply (get_top_players_tags
           (server_ok (JDict [("items", JList [JDict [("tag", JStr "#A")];
                                               JDict [("name", JStr "b");
                                                      ("tag", JStr "#B")]])]))
           "" "global" 200 ClashRoyaleAPI_init world0
           {| status_code := 200; headers := [];
              json_result :=
                Ok (JDict [("items", JList [JDict [("tag", JStr "#A")];
                                            JDict [("name", JStr "b");
                                                   ("tag", JStr "#B")]])]) |}
           [("items", JList [JDict [("tag", JStr "#A")];
                             JDict [("name", JStr "b"); ("tag", JStr "#B")]])]
           [JDict [("tag", JStr "#A")]; JDict [("name", JStr "b"); ("tag", JStr "#B")]]
           [JStr "#A"; JStr "#B"]).
  - reflexivity.
  - reflexivity.
  - reflexivity.
  - reflexivity.
  - reflexivity.
  - repeat constructor; eexists; split; reflexivity.
Defined.

Lemma accessors_not_found_witness :
  let top := get_top_players server_404 "" "global" 200 ClashRoyaleAPI_init world0 in
  let info := get_player_info server_404 "" "#ABC123" ClashRoyaleAPI_init world0 in
  let battles := get_player_battles server_404 "" "#ABC123" ClashRoyaleAPI_init world0 in
  let cards := get_cards server_404 "" ClashRoyaleAPI_init world0 in
  (result_of top = Ok []
   /\ failed_requests (self_after top) = 0
   /\ calls (world_after top) = 1%nat)
  /\ (result_of info = Ok JNull
      /\ failed_requests (self_after info) = 0
      /\ calls (world_after info) = 1%nat)
  /\ (result_of battles = Ok []
      /\ failed_requests (self_after battles) = 0
      /\ calls (world_after battles) = 1%nat)
  /\ (result_of cards = Ok (JList [])
      /\ failed_requests (self_after cards) = 0
      /\ calls (world_after cards) = 1%nat).
Proof.
  apply (accessors_not_found server_404 "" "global" "#ABC123" 200 ClashRoyaleAPI_init world0
           {| status_code := 404; headers := [];
              json_result := Ok (JDict [("reason", JStr "notFound")]) |}).
  - reflexivity.
  - reflexivity.
  - reflexivity.
Defined.


Lemma get_player_battles_payload_witness :
  let mapping := JDict [("reason", JStr "accessDenied")] in
  exists api' w1,
    get_player_battles (server_ok mapping) "" "#ABC123" ClashRoyaleAPI_init world0
    = (Ok [], api',
       got (server_ok mapping) ("" ++ "/players/" ++ encoded_tag "#ABC123" ++ "/battlelog") w1)
    /\ (w1 = world0 \/ exists d, (0 < d)%Q /\ w1 = slept d world0).
Proof.
  apply (get_player_battles_payload (server_ok (JDict [("reason", JStr "accessDenied")]))
           "" "#ABC123" ClashRoyaleAPI_init world0
           {| status_code := 200; headers := [];
              json_result := Ok (JDict [("reason", JStr "accessDenied")]) |}
           (JDict [("reason", JStr "accessDenied")])).
  - reflexivity.
  - reflexivity.
  - reflexivity.
  - reflexivity.
Defined.

Lemma get_cards_payload_witness :
  let catalog := JDict [("items", JList [JDict [("name", JStr "Knight")]])] in
  exists api' w1,
    get_cards (server_ok catalog) "" ClashRoyaleAPI_init world0
    = (Ok (JList [JDict [("name", JStr "Knight")]]), api',
       got (server_ok catalog) ("" ++ "/cards") w1)
    /\ (w1 = world0 \/ exists d, (0 < d)%Q /\ w1 = slept d world0).
Proof.
  apply (get_cards_payload
           (server_ok (JDict [("items", JList [JDict [("name", JStr "Knight")]])]))
           "" ClashRoyaleAPI_init world0
           {| status_code := 200; headers := [];
              json_result :=
                Ok (JDict [("items", JList [JDict [("name", JStr "Knight")]])]) |}
           [("items", JList [JDict [("name", JStr "Knight")]])]).
  - reflexivity.
  - reflexivity.
  - reflexivity.
  - reflexivity.
Defined.

Lemma get_top_players_without_items_witness :
  result_of (get_top_players (server_ok (JDict [("reason", JStr "accessDenied")]))
               "" "global" 200 ClashRoyaleAPI_init world0)
  = Ok [].
Proof.
  apply (get_top_players_without_items
           (server_ok (JDict [("reason", JStr "accessDenied")]))
           "" "global" 200 ClashRoyaleAPI_init world0
           {| status_code := 200; headers := [];
              json_result := Ok (JDict [("reason", JStr "accessDenied")]) |}
           [("reason", JStr "accessDenied")]).
  - reflexivity.
  - reflexivity.
  - reflexivity.
  - reflexivity.
  - reflexivity.
Defined.

Lemma scalar_payload_raises_witness :
  result_of (get_top_players (server_ok (JBool true)) "" "global" 200
               ClashRoyaleAPI_init world0)
  = Raise TypeError
  /\ result_of (get_cards (server_ok (JBool true)) "" ClashRoyaleAPI_init world0)
     = Raise TypeError.
Proof.
  apply (scalar_payload_raises (server_ok (JBool true)) "" "global" 200
           ClashRoyaleAPI_init world0
           {| status_code := 200; headers := []; json_result := Ok (JBool true) |}
           (JBool true)).
  - reflexivity.
  - reflexivity.
  - reflexivity.
  - reflexivity.
  - left. reflexivity.
Defined.

(** ** Tags in URLs *)

Lemma string_all_app (p : ascii -> bool) (a b : string) :
  string_all p (a ++ b) = string_all p a && string_all p b.
Proof.
  induction a as [|c a IH]; cbn [String.append string_all].
  - reflexivity.
  - rewrite IH. apply andb_assoc.
Qed.

Lemma quote_char_segment (c : ascii) :
  string_all segment_char
    (if mem_ascii c ALWAYS_SAFE || mem_ascii c ""
     then String c EmptyString else percent_byte c)
  = true.
Proof.
  destruct c as [[] [] [] [] [] [] [] []]; vm_compute; reflexivity.
Qed.

Lemma quote_segment (s : string) :
  string_all segment_char (quote s "") = true.
Proof.
  induction s as [|c s IH]; cbn [quote].
  - reflexivity.
  - rewrite string_all_app, quote_char_segment, IH. reflexivity.
Qed.

(** X24: whatever the tag, the path segment built from it starts with
    [%23] and consists of unreserved characters (letters, digits,
    [_ . - ~]) and [%] only: no [/], [?], [#] or space of the tag reaches
    the URL. *)
Theorem encoded_tag_is_a_segment (player_tag : string) :
  prefix "%23" (encoded_tag player_tag) = true
  /\ string_all segment_char (encoded_tag player_tag) = true.
Proof.
  unfold encoded_tag. split.
  - cbn [String.append quote].
    change (mem_ascii "#" ALWAYS_SAFE || mem_ascii "#" "") with false.
    cbv iota. change (percent_byte "#") with "%23".
    destruct (quote (replace "#" "" player_tag) ""); reflexivity.
  - apply quote_segment.
Qed.

Lemma unreserved_not_marker (c : ascii) :
  mem_ascii c ALWAYS_SAFE = true -> Ascii.eqb c "#" = false.
Proof.
  destruct (Ascii.eqb_spec c "#") as [->|]; [|reflexivity].
  vm_compute. discriminate.
Qed.

Lemma replace_unreserved (s : string) :
  string_all (fun c => mem_ascii c ALWAYS_SAFE) s = true ->
  replace "#" "" s = s.
Proof.
  induction s as [|c s IH]; cbn [string_all replace]; intros H.
  - reflexivity.
  - apply andb_prop in H. destruct H as [Hc Hs].
    rewrite (unreserved_not_marker c Hc), (IH Hs). reflexivity.
Qed.

Lemma quote_unreserved (s : string) :
  string_all (fun c => mem_ascii c ALWAYS_SAFE) s = true ->
  quote s "" = s.
Proof.
  induction s as [|c s IH]; cbn [string_all quote]; intros H.
  - reflexivity.
  - apply andb_prop in H. destruct H as [Hc Hs].
    rewrite Hc, (IH Hs). reflexivity.
Qed.

(** X25: a tag made of unreserved characters only (as player tags are:
    digits and capital letters) is sent as [%23] followed by the tag
    itself, with or without a leading [#]. *)
Theorem encoded_tag_unreserved (player_tag : string) :
  string_all (fun c => mem_ascii c ALWAYS_SAFE) player_tag = true ->
  encoded_tag player_tag = "%23" ++ player_tag
  /\ encoded_tag ("#" ++ player_tag) = "%23" ++ player_tag.
Proof.
  intros H.
  assert (E : encoded_tag player_tag = "%23" ++ player_tag).
  { unfold encoded_tag. rewrite (replace_unreserved player_tag H).
    cbn [String.append quote]. rewrite (quote_unreserved player_tag H). reflexivity. }
  split; [exact E|].
  rewrite <- E. unfold encoded_tag.
  apply (f_equal (fun clean_tag => quote ("#" ++ clean_tag) "")).
  exact (replace_marker_anywhere "" player_tag).
Qed.

Lemma encoded_tag_unreserved_witness :
  encoded_tag "2PP" = "%23" ++ "2PP"
  /\ encoded_tag ("#" ++ "2PP") = "%23" ++ "2PP".
Proof.
  apply (encoded_tag_unreserved "2PP"). reflexivity.
Defined.

Lemma unquote_quote_char (c : ascii) (rest : string) :
  unquote ((if mem_ascii c ALWAYS_SAFE || mem_ascii c ""
            then String c EmptyString else percent_byte c) ++ rest)
  = String c (unquote rest).
Proof.
  destruct c as [[] [] [] [] [] [] [] []]; reflexivity.
Qed.

Lemma unquote_quote (s : string) :
  unquote (quote s "") = s.
Proof.
  induction s as [|c s IH]; cbn [quote].
  - reflexivity.
  - rewrite unquote_quote_char, IH. reflexivity.
Qed.

(** X26: two tags are sent as the same path segment exactly when they are
    equal once their [#] characters are removed: percent-encoding never
    merges two different tags. *)
Theorem encoded_tag_same_segment (tag1 tag2 : string) :
  encoded_tag tag1 = encoded_tag tag2
  <-> replace "#" "" tag1 = replace "#" "" tag2.
Proof.
  unfold encoded_tag. split; intros H.
  - apply (f_equal unquote) in H. rewrite !unquote_quote in H.
    cbn [String.append] in H. injection H as H. exact H.
  - rewrite H. reflexivity.
Qed.

(** ** Statistics and the connection test *)

Lemma get_api_stats_returns (api : ClashRoyaleAPI) :
  get_api_stats api
  = Ok {| stats_total_requests := total_requests api;
          stats_failed_requests := failed_requests api;
          stats_rate_limit_hits := rate_limit_hits api;
          stats_success_rate :=
            (inject_Z (total_requests api - failed_requests api)
             / inject_Z (Z.max (total_requests api) 1) * 100)%Q |}.
Proof.
  unfold get_api_stats, truediv.
  assert (Hnz : (Z.max (total_requests api) 1 =? 0) = false).
  { apply Z.eqb_neq. lia. }
  rewrite Hnz. reflexivity.
Qed.

(** X27: as long as the failures counted do not exceed the requests
    counted, the success rate lies between 0 and 100; it is 0 for a client
    that has counted nothing but failures, and 100 when no failure was
    counted and at least one request was. *)
Theorem success_rate_range (api : ClashRoyaleAPI) :
  0 <= failed_requests api <= total_requests api ->
  exists stats,
    get_api_stats api = Ok stats
    /\ (0 <= stats_success_rate stats <= 100)%Q
    /\ (failed_requests api = total_requests api -> (stats_success_rate stats == 0)%Q)
    /\ (failed_requests api = 0 -> 0 < total_requests api ->
        (stats_success_rate stats == 100)%Q).
Proof.
  intros [Hf Ht].
  eexists. split; [apply get_api_stats_returns|]. cbn [stats_success_rate].
  set (m := Z.max (total_requests api) 1).
  set (x := total_requests api - failed_requests api).
  assert (Hm : (0 < inject_Z m)%Q).
  { change 0%Q with (inject_Z 0). rewrite <- Zlt_Qlt. unfold m. lia. }
  assert (Hx0 : (0 <= inject_Z x)%Q).
  { change 0%Q with (inject_Z 0). rewrite <- Zle_Qle. unfold x. lia. }
  assert (Hxm : (inject_Z x <= inject_Z m)%Q).
  { rewrite <- Zle_Qle. unfold x, m. lia. }
  assert (Hq0 : (0 <= inject_Z x / inject_Z m)%Q).
  { apply Qle_shift_div_l; [exact Hm|]. lra. }
  assert (Hq1 : (inject_Z x / inject_Z m <= 1)%Q).
  { apply Qle_shift_div_r; [exact Hm|]. lra. }
  split; [split; lra|]. split.
  - intros Heq. unfold x. rewrite Heq, Z.sub_diag.
    change (inject_Z 0) with 0%Q. unfold Qdiv. ring.
  - intros Hzero Hpos. unfold x, m. rewrite Hzero, Z.sub_0_r, Z.max_l by lia.
    field. intros Hc.
    assert (Hlt : (0 < inject_Z (total_requests api))%Q).
    { change 0%Q with (inject_Z 0). rewrite <- Zlt_Qlt. exact Hpos. }
    rewrite Hc in Hlt. exact (Qlt_irrefl 0 Hlt).
Qed.

Lemma success_rate_range_witness :
  exists stats,
    get_api_stats {| rate_limiter := RateLimiter_init 10; total_requests := 4;
                     failed_requests := 1; rate_limit_hits := 0 |} = Ok stats
    /\ (0 <= stats_success_rate stats <= 100)%Q.
Proof.
  destruct (success_rate_range
              {| rate_limiter := RateLimiter_init 10; total_requests := 4;
                 failed_requests := 1; rate_limit_hits := 0 |})
    as (stats & Hrun & Hrange & _).
  - cbn. lia.
  - exists stats. split; [exact Hrun|exact Hrange].
Defined.

(** [test_connection] adds nothing to what [get_top_players] did but its
    verdict. *)
Lemma test_connection_run (server : nat -> NetReply) (base : string)
      (api : ClashRoyaleAPI) (w : World) :
  test_connection server base api w
  = match get_top_players server base "global" 5 api w with
    | (Ok (_ :: _), api', w') => (Ok true, api', w')
    | (Ok [], api', w') => (Ok false, api', w')
    | (Raise e, api', w') => (Raise e, api', w')
    end.
Proof.
  unfold test_connection, bind at 1.
  destruct (get_top_players server base "global" 5 api w) as [[[tags|e] api'] w'];
    [|reflexivity].
  destruct tags as [|tag tags]; [reflexivity|].
  unfold bind, get_self, lift. rewrite get_api_stats_returns. reflexivity.
Qed.

(** X28: [test_connection] returns [True] exactly when the leaderboard
    request for five players produced at least one tag and [False] when it
    produced none; an exception of [get_top_players] passes through it, and
    computing the statistics for its message never raises. *)
Theorem test_connection_verdict (server : nat -> NetReply) (base : string)
        (api : ClashRoyaleAPI) (w : World) :
  result_of (test_connection server base api w)
  = match result_of (get_top_players server base "global" 5 api w) with
    | Ok (_ :: _) => Ok true
    | Ok [] => Ok false
    | Raise e => Raise e
    end.
Proof.
  rewrite test_connection_run.
  destruct (get_top_players server base "global" 5 api w) as [[[tags|e] api'] w'];
    [destruct tags|]; reflexivity.
Qed.

(** X29: [test_api] of the setup script never raises, whatever the server
    does: it returns [True] when the leaderboard request of a new client
    produced at least one tag, and [False] in every other case, an
    exception inside the client included. *)
Theorem test_api_verdict (server : nat -> NetReply) (base : string) (w : World) :
  fst (test_api server base w)
  = Ok match result_of (get_top_players server base "global" 5 ClashRoyaleAPI_init w) with
       | Ok (_ :: _) => true
       | _ => false
       end.
Proof.
  unfold test_api, try_except. rewrite test_connection_run.
  destruct (get_top_players server base "global" 5 ClashRoyaleAPI_init w)
    as [[[tags|e] api'] w']; [destruct tags|]; reflexivity.
Qed.

Lemma encoded_tag_same_segment_witness :
  encoded_tag "#A#B" = encoded_tag "AB".
Proof.
  apply (proj2 (encoded_tag_same_segment "#A#B" "AB")). reflexivity.
Defined.

(** ** A body that does not parse *)

(** X30: a 200 response whose [response.json()] raises is counted in
    [total_requests] and not in [failed_requests].  When the exception is a
    [requests] exception (timeout or any other [RequestException]) the
    attempt is treated like a transport error: backoff of
    [5 * (attempt + 1)] seconds, then the next iteration.  Any other
    exception leaves the loop body at once, without sleep. *)
Theorem attempt_unparsable_body
        (server : nat -> NetReply) (base endpoint : string) (attempt : Z)
        (api : ClashRoyaleAPI) (w : World) (response : Response) (e : exn) :
  0 < max_rps (rate_limiter api) ->
  0 <= attempt ->
  reply (server (calls w)) = Ok response ->
  status_code response = 200 ->
  json_result response = Raise e ->
  exists api' w1,
    attempt_body server base endpoint attempt api w
    = match e with
      | Timeout | RequestException =>
          (Ok Next, api',
           slept (inject_Z (5 * (attempt + 1))) (got server (base ++ endpoint) w1))
      | _ => (Raise e, api', got server (base ++ endpoint) w1)
      end
    /\ (w1 = w \/ exists d, (0 < d)%Q /\ w1 = slept d w)
    /\ total_requests api' = total_requests api + 1
    /\ failed_requests api' = failed_requests api
    /\ rate_limit_hits api' = rate_limit_hits api.
Proof.
  intros Hpos Hatt Hreply Hst Hjson.
  destruct (attempt_response server base endpoint attempt api w response Hpos Hreply)
    as (rl1 & w1 & Hrun & _ & _ & Hw1).
  exists (counted (set_rate_limiter rl1 api)), w1.
  split; [|split; [exact Hw1|repeat split; reflexivity]].
  rewrite Hrun. unfold try_except, on_status. rewrite Hst.
  change (200 =? 200) with true. cbv iota.
  unfold bind, lift. rewrite Hjson.
  assert (Hd : Qltb (inject_Z (5 * (attempt + 1))) 0 = false).
  { apply Qltb_ge. change 0%Q with (inject_Z 0). rewrite <- Zle_Qle. lia. }
  destruct e; cbn [except_clauses]; try reflexivity;
    unfold backoff, bind, time_sleep; rewrite Hd; reflexivity.
Qed.

Lemma attempt_unparsable_body_witness :
  let server := fun _ : nat => respond 200 [] (Raise RequestException) in
  exists api' w1,
    attempt_body server "" "/cards" 0 ClashRoyaleAPI_init world0
    = (Ok Next, api',
       slept (inject_Z (5 * (0 + 1))) (got server ("" ++ "/cards") w1))
    /\ (w1 = world0 \/ exists d, (0 < d)%Q /\ w1 = slept d world0)
    /\ total_requests api' = 0 + 1
    /\ failed_requests api' = 0
    /\ rate_limit_hits api' = 0.
Proof.
  apply (attempt_unparsable_body
           (fun _ : nat => respond 200 [] (Raise RequestException)) "" "/cards" 0
           ClashRoyaleAPI_init world0
           {| status_code := 200; headers := []; json_result := Raise RequestException |}
           RequestException).
  - reflexivity.
  - lia.
  - reflexivity.
  - reflexivity.
  - reflexivity.
Defined.
